(** * Flood forecaster: risk evaluation and alert dispatch pipeline

    A shallow embedding of the risk scorer ([app/services/flood_risk.py]),
    the subscriber matcher ([app/crud.py]), the notification fan-out
    ([app/services/notification.py]) and the event-creation handler
    ([app/routers/floods.py]), followed by the properties proved of them.

    Python [float]s are IEEE 754 binary64 numbers and are modelled by the
    primitive type [float]; Python [int]s are modelled by [Z]; [str] by
    [string]; [Optional[T]] by [option T]. *)

From Stdlib Require Import ZArith List String Ascii Bool Lia DecimalString.
From Stdlib Require Import Floats.
Import ListNotations.

Local Open Scope Z_scope.
Local Open Scope string_scope.

(** ** Python runtime helpers *)

Module Py.

(** Conversion of an [int] to a [float] (round to nearest, ties to even),
    as performed when an [int] meets a [float] in arithmetic. *)
Definition float_of_int (z : Z) : float :=
  SF2Prim (binary_normalize prec emax z 0 false).

(** [max(0, x)] for a float [x]: the builtin keeps its first argument
    unless a later one compares strictly greater. *)
Definition max0 (x : float) : float :=
  if (0 <? x)%float then x else 0%float.

(** Truthiness of an [Optional[str]]: [None] and the empty string are falsy. *)
Definition truthy (s : option string) : bool :=
  match s with
  | None => false
  | Some s => negb (s =? "")
  end.

(** A JSON object / [dict] with string keys, in insertion order. *)
Definition dict (V : Type) : Type := list (string * V).

Fixpoint dict_lookup {V} (k : string) (d : dict V) : option V :=
  match d with
  | [] => None
  | (k', v) :: d' => if k' =? k then Some v else dict_lookup k d'
  end.

(** [d.get(k, default)] *)
Definition dict_get {V} (d : dict V) (k : string) (default : V) : V :=
  match dict_lookup k d with
  | Some v => v
  | None => default
  end.

(** [x in l] for a list of strings. *)
Definition str_in (x : string) (l : list string) : bool :=
  existsb (String.eqb x) l.

(** What the interpreter and the C library supply and the repository does
    not define: the builtin [hash] on [str] (salted per process), the text
    of a [float] inside an f-string, and [float.__pow__] (libm's [pow]; the
    [OverflowError] of a result out of range is not modelled, coordinates
    within their validated ranges stay far from it). *)
Record Runtime := {
  py_hash : string -> Z;
  float_str : float -> string;
  float_pow : float -> float -> float
}.

(** The outcome of a call that may raise. *)
Inductive response (A : Type) : Type :=
| Raised : response A
| Returned : A -> response A.
Arguments Raised {A}.
Arguments Returned {A} _.

(** [x / y] on floats: division by a zero of either sign raises
    [ZeroDivisionError]. *)
Definition truediv (x y : float) : response float :=
  if (y =? 0)%float then Raised else Returned (x / y)%float.

(** [str(n)] for an [int]. *)
Definition str_int (n : Z) : string := NilZero.string_of_int (Z.to_int n).

End Py.

(** ** [app/schemas.py] *)

Module Schemas.

Inductive SeverityLevel := LOW | MEDIUM | HIGH | CRITICAL.

(** [SeverityLevel.X.value] *)
Definition value (s : SeverityLevel) : string :=
  match s with
  | LOW => "Low"
  | MEDIUM => "Medium"
  | HIGH => "High"
  | CRITICAL => "Critical"
  end.

Record FloodEventCreate := {
  fec_location_name : string;
  fec_latitude : float;
  fec_longitude : float;
  fec_description : option string;
  fec_rainfall_mm : option float;
  fec_elevation_m : option float
}.


Record AlertSubscriptionCreate := {
  asc_email : option string;
  asc_phone : option string;
  asc_latitude : float;
  asc_longitude : float;
  asc_radius_km : float;
  asc_min_severity : string
}.

(** The [Field] constraints of [AlertSubscriptionBase]: latitude in
    [-90, 90], longitude in [-180, 180], radius in [0.1, 50] ([0.1] is the binary64
    number [0x1.999999999999ap-4]); [min_severity] is any [str]. *)
Definition AlertSubscriptionCreate_valid (a : AlertSubscriptionCreate) : bool :=
  ((-90 <=? asc_latitude a) && (asc_latitude a <=? 90))%float
  && ((-180 <=? asc_longitude a) && (asc_longitude a <=? 180))%float
  && ((0x1.999999999999ap-4 <=? asc_radius_km a)
      && (asc_radius_km a <=? 50))%float.

(** [AlertSubscriptionUpdate].  A field is [None] when the request leaves
    it unset, which is what [dict(exclude_unset=True)] drops.  For the two
    nullable contact columns a field that is set may hold a null. *)
Record AlertSubscriptionUpdate := {
  asu_email : option (option string);
  asu_phone : option (option string);
  asu_radius_km : option float;
  asu_min_severity : option string;
  asu_is_active : option bool
}.

Record RiskCalculationRequest := {
  rcr_latitude : float;
  rcr_longitude : float;
  rcr_location_name : option string
}.

Definition RiskCalculationRequest_valid (r : RiskCalculationRequest) : bool :=
  ((-90 <=? rcr_latitude r) && (rcr_latitude r <=? 90))%float
  && ((-180 <=? rcr_longitude r) && (rcr_longitude r <=? 180))%float.

(** Whether a string is the value of a member of [SeverityLevel]. *)
Definition is_SeverityLevel (s : string) : bool :=
  existsb (fun t => value t =? s) [LOW; MEDIUM; HIGH; CRITICAL].

Record MessageResponse := {
  mr_message : string;
  mr_detail : option string
}.


Record NotificationResult := {
  nr_sms_sent : Z;
  nr_sms_failed : Z;
  nr_emails_sent : Z;
  nr_emails_failed : Z;
  nr_message : string
}.

Record UserCreate := {
  uc_email : string;
  uc_username : string;
  uc_password : string
}.

(** [username] has 3 to 50 characters and [password] at least 8. *)
Definition UserCreate_valid (u : UserCreate) : bool :=
  (3 <=? String.length (uc_username u))%nat
  && (String.length (uc_username u) <=? 50)%nat
  && (8 <=? String.length (uc_password u))%nat.

End Schemas.

(** ** [app/services/flood_risk.py] *)

Module FloodRisk.
Import Py Schemas.

(** Decoded provider payloads. *)
Record WeatherData := { w_rain : option (dict float) }.
Record ForecastEntry := { fe_rain : option (dict float) }.
Record ForecastData := { fc_list : option (list ForecastEntry) }.
Record ElevationData := {
  el_status : option string;
  el_results : option (list float)
}.

(** The HTTP providers; [Raised] stands for any exception of the request,
    of [raise_for_status] or of decoding the payload. *)
Record Providers := {
  get_weather : float -> float -> response WeatherData;
  get_forecast : float -> float -> response ForecastData;
  get_elevation : float -> float -> response ElevationData
}.

Record FloodRiskService := {
  openweather_api_key : string;
  google_elevation_api_key : option string
}.

Definition _get_forecast_rainfall (P : Providers) (latitude longitude : float)
  : float :=
  match get_forecast P latitude longitude with
  | Returned data =>
      let total_rainfall :=
        match fc_list data with
        | Some l =>
            fold_left
              (fun total forecast =>
                 match fe_rain forecast with
                 | Some rain => (total + dict_get rain "3h" 0)%float
                 | None => total
                 end)
              (firstn 4 l) 0%float
        | None => 0%float
        end in
      if (0 <? total_rainfall)%float then (total_rainfall / 4)%float
      else 0%float
  | Raised => 0%float
  end.

Definition get_rainfall_data (P : Providers) (latitude longitude : float)
  : float :=
  match get_weather P latitude longitude with
  | Returned data =>
      let rainfall :=
        match w_rain data with
        | Some rain => dict_get rain "1h" 0%float
        | None => 0%float
        end in
      if (rainfall =? 0)%float
      then _get_forecast_rainfall P latitude longitude
      else rainfall
  | Raised => 5%float
  end.

Definition _mock_elevation (R : Runtime) (latitude longitude : float) : float :=
  let base_elevation := (abs latitude * 10)%float in
  let variation :=
    (py_hash R (float_str R latitude ++ "," ++ float_str R longitude)) mod 100
    - 50 in
  max0 (base_elevation + float_of_int variation)%float.

Definition get_elevation_data (R : Runtime) (P : Providers)
  (self : FloodRiskService) (latitude longitude : float) : float :=
  if negb (truthy (google_elevation_api_key self))
     || match google_elevation_api_key self with
        | Some k => k =? "your_google_elevation_api_key_here"
        | None => false
        end
  then _mock_elevation R latitude longitude
  else
    match get_elevation P latitude longitude with
    | Returned data =>
        match el_status data, el_results data with
        | Some st, Some (elevation :: _) =>
            if st =? "OK" then elevation
            else _mock_elevation R latitude longitude
        | _, _ => _mock_elevation R latitude longitude
        end
    | Raised => _mock_elevation R latitude longitude
    end.

(** The two point tables of [calculate_risk_score]. *)
Definition rainfall_score (rainfall_mm : float) : Z :=
  if (rainfall_mm <? 5)%float then 10
  else if (rainfall_mm <? 15)%float then 20
  else if (rainfall_mm <? 30)%float then 35
  else if (rainfall_mm <? 50)%float then 50
  else 60.

Definition elevation_score (elevation_m : float) : Z :=
  if (elevation_m <? 10)%float then 40
  else if (elevation_m <? 50)%float then 30
  else if (elevation_m <? 100)%float then 20
  else if (elevation_m <? 200)%float then 10
  else 5.

Definition severity_of (total_score : Z) : SeverityLevel :=
  if (total_score <=? 25)%Z then LOW
  else if (total_score <=? 50)%Z then MEDIUM
  else if (total_score <=? 75)%Z then HIGH
  else CRITICAL.

Definition calculate_risk_score (rainfall_mm elevation_m : float)
  : Z * string :=
  let total_score := rainfall_score rainfall_mm + elevation_score elevation_m in
  let severity := severity_of total_score in
  (total_score, value severity).

Record Factors := {
  rainfall_contribution : string;
  elevation_contribution : string;
  explanation : string
}.

Record RiskData := {
  rainfall_mm : float;
  elevation_m : float;
  risk_score : Z;
  severity : string;
  factors : Factors
}.

Definition calculate_flood_risk (R : Runtime) (P : Providers)
  (self : FloodRiskService) (latitude longitude : float)
  (rainfall_override elevation_override : option float) : RiskData :=
  let rainfall :=
    match rainfall_override with
    | Some r => r
    | None => get_rainfall_data P latitude longitude
    end in
  let elevation :=
    match elevation_override with
    | Some e => e
    | None => get_elevation_data R P self latitude longitude
    end in
  let '(risk_score, severity) := calculate_risk_score rainfall elevation in
  {| rainfall_mm := rainfall;
     elevation_m := elevation;
     risk_score := risk_score;
     severity := severity;
     factors :=
       {| rainfall_contribution :=
            if (30 <? rainfall)%float then "High"
            else if (15 <? rainfall)%float then "Medium" else "Low";
          elevation_contribution :=
            if (elevation <? 50)%float then "High risk"
            else if (elevation <? 100)%float then "Medium risk"
            else "Low risk";
          explanation :=
            "Risk is "
            ++ (if (50 <? risk_score)%Z then "elevated"
                else if (25 <? risk_score)%Z then "moderate" else "low")
            ++ " due to "
            ++ (if (30 <? rainfall)%float then "heavy"
                else if (15 <? rainfall)%float then "moderate" else "light")
            ++ " rainfall and "
            ++ (if (elevation <? 50)%float then "low"
                else if (elevation <? 100)%float then "moderate" else "high")
            ++ " elevation." |} |}.

End FloodRisk.

(** ** [app/models.py] *)

Module Models.

Record FloodEvent := {
  ev_id : Z;
  ev_location_name : string;
  ev_latitude : float;
  ev_longitude : float;
  ev_severity : string;
  ev_risk_score : Z;
  ev_rainfall_mm : float;
  ev_elevation_m : float;
  ev_description : option string
}.

Record AlertSubscription := {
  sub_id : Z;
  sub_email : option string;
  sub_phone : option string;
  sub_latitude : float;
  sub_longitude : float;
  sub_radius_km : float;
  sub_min_severity : string;
  sub_is_active : Z
}.

(** The two tables a [Session] reaches, rows in storage order. *)
Record Session := {
  flood_events : list FloodEvent;
  alert_subscriptions : list AlertSubscription
}.

End Models.

(** ** [app/crud.py] *)

Module Crud.
Import Py Schemas Models.

(** [create_flood_event]: [db.add], [db.commit], [db.refresh]; the key is
    the next row number (the timestamp column is left out). *)
Definition create_flood_event (db : Session) (flood_event : FloodEventCreate)
  (risk_score : Z) (severity : string) (rainfall_mm elevation_m : float)
  : FloodEvent * Session :=
  let db_flood_event :=
    {| ev_id := Z.of_nat (List.length (flood_events db)) + 1;
       ev_location_name := fec_location_name flood_event;
       ev_latitude := fec_latitude flood_event;
       ev_longitude := fec_longitude flood_event;
       ev_severity := severity;
       ev_risk_score := risk_score;
       ev_rainfall_mm := rainfall_mm;
       ev_elevation_m := elevation_m;
       ev_description := fec_description flood_event |} in
  (db_flood_event,
   {| flood_events := (flood_events db ++ [db_flood_event])%list;
      alert_subscriptions := alert_subscriptions db |}).

(** [create_subscription]: the row holds the request's fields as they
    are, with [is_active=1]. *)
Definition create_subscription (db : Session)
  (subscription : AlertSubscriptionCreate) : AlertSubscription * Session :=
  let db_subscription :=
    {| sub_id := Z.of_nat (List.length (alert_subscriptions db)) + 1;
       sub_email := asc_email subscription;
       sub_phone := asc_phone subscription;
       sub_latitude := asc_latitude subscription;
       sub_longitude := asc_longitude subscription;
       sub_radius_km := asc_radius_km subscription;
       sub_min_severity := asc_min_severity subscription;
       sub_is_active := 1 |} in
  (db_subscription,
   {| flood_events := flood_events db;
      alert_subscriptions := (alert_subscriptions db ++ [db_subscription])%list |}).

(** Severity order: Low < Medium < High < Critical *)
Definition severity_order : dict Z :=
  [("Low", 0); ("Medium", 1); ("High", 2); ("Critical", 3)].

Definition approx_dist_km (R : Runtime) (sub : AlertSubscription)
  (latitude longitude : float) : float :=
  let lat_diff := abs (sub_latitude sub - latitude) in
  let lon_diff := abs (sub_longitude sub - longitude) in
  (float_pow R (float_pow R lat_diff 2 + float_pow R lon_diff 2) 0.5 * 111)%float.

Definition get_subscriptions_near_location (R : Runtime) (db : Session)
  (latitude longitude : float) (min_severity : string)
  : list AlertSubscription :=
  let event_severity_level := dict_get severity_order min_severity 0 in
  let subscriptions :=
    filter (fun sub => (sub_is_active sub =? 1)%Z) (alert_subscriptions db) in
  fold_left
    (fun matching_subs sub =>
       let sub_severity_level :=
         dict_get severity_order (sub_min_severity sub) 0 in
       if (approx_dist_km R sub latitude longitude <=? sub_radius_km sub)%float
          && (event_severity_level >=? sub_severity_level)%Z
       then (matching_subs ++ [sub])%list
       else matching_subs)
    subscriptions [].

Definition get_flood_event (db : Session) (flood_id : Z) : option FloodEvent :=
  find (fun ev => (ev_id ev =? flood_id)%Z) (flood_events db).

(** [db.delete(row)] removes the rows that carry the key of [row]. *)
Definition delete_flood_event (db : Session) (flood_id : Z) : bool * Session :=
  match get_flood_event db flood_id with
  | Some flood_event =>
      (true,
       {| flood_events :=
            filter (fun ev => negb (ev_id ev =? ev_id flood_event)%Z)
              (flood_events db);
          alert_subscriptions := alert_subscriptions db |})
  | None => (false, db)
  end.

(** [column.between(lo, hi)] *)
Definition between (x lo hi : float) : bool :=
  ((lo <=? x) && (x <=? hi))%float.

(** [get_flood_events_by_location].  [newest_first] is the engine's
    [ORDER BY timestamp DESC]; the timestamp column is not part of the
    modelled row. *)
Definition get_flood_events_by_location
  (newest_first : list FloodEvent -> list FloodEvent) (db : Session)
  (latitude longitude radius_km : float) : response (list FloodEvent) :=
  let lat_delta := (radius_km / 111)%float in
  match truediv radius_km (111 * abs latitude)%float with
  | Raised => Raised
  | Returned lon_delta =>
      Returned
        (newest_first
           (filter
              (fun ev =>
                 between (ev_latitude ev)
                   (latitude - lat_delta)%float (latitude + lat_delta)%float
                 && between (ev_longitude ev)
                      (longitude - lon_delta)%float
                      (longitude + lon_delta)%float)
              (flood_events db)))
  end.

Definition get_subscription (db : Session) (subscription_id : Z)
  : option AlertSubscription :=
  find (fun sub => (sub_id sub =? subscription_id)%Z) (alert_subscriptions db).

(** [get_subscriptions]; [skip] and [limit] are not negative. *)
Definition get_subscriptions (db : Session) (skip limit : nat)
  (active_only : bool) : list AlertSubscription :=
  let query := alert_subscriptions db in
  let query :=
    if active_only
    then filter (fun sub => (sub_is_active sub =? 1)%Z) query
    else query in
  firstn limit (skipn skip query).

(** [setattr(row, field, value)] for every field the update sets; a
    boolean is stored in the integer column as 1 or 0. *)
Definition apply_update (u : AlertSubscriptionUpdate) (sub : AlertSubscription)
  : AlertSubscription :=
  {| sub_id := sub_id sub;
     sub_email := match asu_email u with
                  | Some v => v
                  | None => sub_email sub
                  end;
     sub_phone := match asu_phone u with
                  | Some v => v
                  | None => sub_phone sub
                  end;
     sub_latitude := sub_latitude sub;
     sub_longitude := sub_longitude sub;
     sub_radius_km := match asu_radius_km u with
                      | Some v => v
                      | None => sub_radius_km sub
                      end;
     sub_min_severity := match asu_min_severity u with
                         | Some v => v
                         | None => sub_min_severity sub
                         end;
     sub_is_active := match asu_is_active u with
                      | Some true => 1
                      | Some false => 0
                      | None => sub_is_active sub
                      end |}.

Definition update_subscription (db : Session) (subscription_id : Z)
  (subscription_update : AlertSubscriptionUpdate)
  : option AlertSubscription * Session :=
  match get_subscription db subscription_id with
  | None => (None, db)
  | Some db_subscription =>
      (Some (apply_update subscription_update db_subscription),
       {| flood_events := flood_events db;
          alert_subscriptions :=
            map (fun sub =>
                   if (sub_id sub =? sub_id db_subscription)%Z
                   then apply_update subscription_update sub
                   else sub)
              (alert_subscriptions db) |})
  end.

Definition delete_subscription (db : Session) (subscription_id : Z)
  : bool * Session :=
  match get_subscription db subscription_id with
  | Some subscription =>
      (true,
       {| flood_events := flood_events db;
          alert_subscriptions :=
            filter (fun sub => negb (sub_id sub =? sub_id subscription)%Z)
              (alert_subscriptions db) |})
  | None => (false, db)
  end.

End Crud.

(** ** Effects: provider requests and the exceptions they may raise *)

Module Effects.
Import Py.

Inductive Stage := Matching | Dispatch.

(** What a run leaves behind, oldest first: the requests handed to the SMS
    and e-mail providers, and a mark each time the handler enters a stage. *)
Inductive Event :=
| TwilioPost (From To Body : string)
| SmtpSend (From To Subject : string) (body : string) (html : option string)
| Entered (s : Stage).

Definition Log := list Event.

Inductive result (A : Type) : Type :=
| Ok : A -> result A
| Exception : result A.
Arguments Ok {A} _.
Arguments Exception {A}.

(** A computation reads the log so far and extends it; it returns a value
    or raises. *)
Definition IO (A : Type) : Type := Log -> result A * Log.

Definition ret {A} (a : A) : IO A := fun h => (Ok a, h).

Definition bind {A B} (m : IO A) (k : A -> IO B) : IO B :=
  fun h =>
    match m h with
    | (Ok a, h') => k a h'
    | (Exception, h') => (Exception, h')
    end.

(** [try: m  except Exception: handler] *)
Definition try_except {A} (m : IO A) (handler : IO A) : IO A :=
  fun h =>
    match m h with
    | (Ok a, h') => (Ok a, h')
    | (Exception, h') => handler h'
    end.

Definition emit (e : Event) : IO unit := fun h => (Ok tt, (h ++ [e])%list).

(** Hands request [e] to a provider whose answer may depend on everything
    sent before. *)
Definition request {A} (e : Event) (answer : Log -> response A) : IO A :=
  fun h =>
    match answer h with
    | Returned a => (Ok a, (h ++ [e])%list)
    | Raised => (Exception, (h ++ [e])%list)
    end.

(** [for x in l: s = body(x, s)] *)
Fixpoint for_each {A S} (l : list A) (body : A -> S -> IO S) (s : S) : IO S :=
  match l with
  | [] => ret s
  | x :: l' => bind (body x s) (for_each l' body)
  end.

Module Notations.
Notation "x <- m ;; k" := (bind m (fun x => k))
  (at level 61, m at next level, right associativity).
End Notations.

End Effects.

(** ** [app/services/notification.py] *)

Module Notification.
Import Py Effects Effects.Notations.

Record NotificationService := {
  twilio_sid : option string;
  twilio_token : option string;
  twilio_phone : option string;
  smtp_server : string;
  smtp_port : Z;
  smtp_email : option string;
  smtp_password : option string
}.

(** The two outside services: Twilio answers a POST with a status code,
    the SMTP session (connect, STARTTLS, login, send) completes or raises. *)
Record Gateways := {
  twilio : Log -> string -> string -> response Z;
  smtp : Log -> string -> string -> string -> option string -> response unit
}.

(** The four f-string renderings of an alert, as functions of
    [location_name], [risk_level], [risk_score], [latitude], [longitude]. *)
Record Templates := {
  sms_message : string -> string -> float -> float -> float -> string;
  email_subject : string -> string -> float -> float -> float -> string;
  email_body : string -> string -> float -> float -> float -> string;
  email_html : string -> string -> float -> float -> float -> string
}.

Definition send_sms (self : NotificationService) (G : Gateways)
  (to_phone message : string) : IO bool :=
  if negb (forallb truthy [twilio_sid self; twilio_token self; twilio_phone self])
  then ret false
  else
    try_except
      (status_code <-
         request (TwilioPost (match twilio_phone self with
                              | Some p => p
                              | None => ""
                              end) to_phone message)
                 (fun h => twilio G h to_phone message) ;;
       if (status_code =? 201)%Z then ret true else ret false)
      (ret false).

Definition send_email (self : NotificationService) (G : Gateways)
  (to_email subject body : string) (html_body : option string) : IO bool :=
  if negb (forallb truthy [smtp_email self; smtp_password self])
  then ret false
  else
    try_except
      (_ <- request (SmtpSend (match smtp_email self with
                               | Some e => e
                               | None => ""
                               end) to_email subject body
                              (if truthy html_body then html_body else None))
                    (fun h => smtp G h to_email subject body html_body) ;;
       ret true)
      (ret false).

Record Results := {
  sms_sent : Z;
  sms_failed : Z;
  emails_sent : Z;
  emails_failed : Z
}.

Definition send_flood_alert (self : NotificationService) (G : Gateways)
  (T : Templates) (location_name risk_level : string)
  (risk_score latitude longitude : float)
  (phone_numbers emails : option (list string)) : IO Results :=
  let sms_message :=
    sms_message T location_name risk_level risk_score latitude longitude in
  let email_subject :=
    email_subject T location_name risk_level risk_score latitude longitude in
  let email_body :=
    email_body T location_name risk_level risk_score latitude longitude in
  let email_html :=
    email_html T location_name risk_level risk_score latitude longitude in
  let results :=
    {| sms_sent := 0; sms_failed := 0; emails_sent := 0; emails_failed := 0 |} in
  results <-
    match phone_numbers with
    | Some ((_ :: _) as phone_numbers) =>
        for_each phone_numbers
          (fun phone results =>
             success <- send_sms self G phone sms_message ;;
             if success : bool
             then ret {| sms_sent := sms_sent results + 1;
                         sms_failed := sms_failed results;
                         emails_sent := emails_sent results;
                         emails_failed := emails_failed results |}
             else ret {| sms_sent := sms_sent results;
                         sms_failed := sms_failed results + 1;
                         emails_sent := emails_sent results;
                         emails_failed := emails_failed results |})
          results
    | _ => ret results
    end ;;
  results <-
    match emails with
    | Some ((_ :: _) as emails) =>
        for_each emails
          (fun email results =>
             success <-
               send_email self G email email_subject email_body
                          (Some email_html) ;;
             if success : bool
             then ret {| sms_sent := sms_sent results;
                         sms_failed := sms_failed results;
                         emails_sent := emails_sent results + 1;
                         emails_failed := emails_failed results |}
             else ret {| sms_sent := sms_sent results;
                         sms_failed := sms_failed results;
                         emails_sent := emails_sent results;
                         emails_failed := emails_failed results + 1 |})
          results
    | _ => ret results
    end ;;
  ret results.




End Notification.

(** ** What a handler gives back *)

Module Http.

(** A handler returns its response or raises [HTTPException]. *)
Inductive http (A : Type) : Type :=
| Respond : A -> http A
| HTTPException : Z -> string -> http A.
Arguments Respond {A} _.
Arguments HTTPException {A} _ _.

End Http.

(** ** [app/routers/floods.py] *)

Module Floods.
Import Py Schemas Models Effects Effects.Notations.

(** [[x.f for x in subscriptions if x.f]] *)
Definition contacts (f : AlertSubscription -> option string)
  (subscriptions : list AlertSubscription) : list string :=
  flat_map
    (fun sub =>
       match f sub with
       | Some c => if truthy (Some c) then [c] else []
       | None => []
       end)
    subscriptions.

(** [l if l else None] *)
Definition or_None {A} (l : list A) : option (list A) :=
  match l with
  | [] => None
  | _ :: _ => Some l
  end.

Definition create_flood_event (R : Runtime) (P : FloodRisk.Providers)
  (flood_risk_service : FloodRisk.FloodRiskService)
  (notification_service : Notification.NotificationService)
  (G : Notification.Gateways) (T : Notification.Templates)
  (flood_event : FloodEventCreate) (db : Session)
  : IO (FloodEvent * Session) :=
  let risk_data :=
    FloodRisk.calculate_flood_risk R P flood_risk_service
      (fec_latitude flood_event) (fec_longitude flood_event)
      (fec_rainfall_mm flood_event) (fec_elevation_m flood_event) in
  let '(db_flood_event, db) :=
    Crud.create_flood_event db flood_event
      (FloodRisk.risk_score risk_data) (FloodRisk.severity risk_data)
      (FloodRisk.rainfall_mm risk_data) (FloodRisk.elevation_m risk_data) in
  if str_in (FloodRisk.severity risk_data) ["High"; "Critical"]
  then
    _ <- emit (Entered Matching) ;;
    let subscriptions :=
      Crud.get_subscriptions_near_location R db
        (fec_latitude flood_event) (fec_longitude flood_event)
        (FloodRisk.severity risk_data) in
    match subscriptions with
    | _ :: _ =>
        let emails := contacts sub_email subscriptions in
        let phones := contacts sub_phone subscriptions in
        _ <- emit (Entered Dispatch) ;;
        _ <- Notification.send_flood_alert notification_service G T
               (fec_location_name flood_event)
               (FloodRisk.severity risk_data)
               (float_of_int (FloodRisk.risk_score risk_data))
               (fec_latitude flood_event) (fec_longitude flood_event)
               (or_None phones) (or_None emails) ;;
        ret (db_flood_event, db)
    | [] => ret (db_flood_event, db)
    end
  else ret (db_flood_event, db).

Import Http.

Definition get_flood_event (db : Session) (flood_id : Z) : http FloodEvent :=
  match Crud.get_flood_event db flood_id with
  | None => HTTPException 404 "Flood event not found"
  | Some flood_event => Respond flood_event
  end.

Definition delete_flood_event (db : Session) (flood_id : Z)
  : http MessageResponse * Session :=
  let '(success, db) := Crud.delete_flood_event db flood_id in
  if negb success
  then (HTTPException 404 "Flood event not found", db)
  else (Respond {| mr_message := "Flood event deleted successfully";
                   mr_detail := Some ("Deleted flood event with ID "
                                      ++ str_int flood_id) |},
        db).

(** The [Query] constraints of [get_nearby_flood_events]. *)
Definition nearby_query_valid (latitude longitude radius_km : float) : bool :=
  ((-90 <=? latitude) && (latitude <=? 90))%float
  && ((-180 <=? longitude) && (longitude <=? 180))%float
  && ((0x1.999999999999ap-4 <=? radius_km) && (radius_km <=? 50))%float.

(** [get_nearby_flood_events]; [Raised] is the exception the handler lets
    through. *)
Definition get_nearby_flood_events
  (newest_first : list FloodEvent -> list FloodEvent) (db : Session)
  (latitude longitude radius_km : float) : response (list FloodEvent) :=
  Crud.get_flood_events_by_location newest_first db latitude longitude radius_km.

Record RiskCalculationResponse := {
  rc_latitude : float;
  rc_longitude : float;
  rc_location_name : option string;
  rc_risk_score : float;
  rc_severity : string;
  rc_rainfall_mm : float;
  rc_elevation_m : float;
  rc_factors : FloodRisk.Factors
}.

(** The constraints of [RiskCalculationResponse]: [risk_score] in
    [0, 100] and [severity] a [SeverityLevel]. *)
Definition RiskCalculationResponse_valid (r : RiskCalculationResponse) : bool :=
  ((0 <=? rc_risk_score r) && (rc_risk_score r <=? 100))%float
  && is_SeverityLevel (rc_severity r).

Definition calculate_flood_risk (R : Runtime) (P : FloodRisk.Providers)
  (flood_risk_service : FloodRisk.FloodRiskService)
  (request : RiskCalculationRequest) : RiskCalculationResponse :=
  let risk_data :=
    FloodRisk.calculate_flood_risk R P flood_risk_service
      (rcr_latitude request) (rcr_longitude request) None None in
  {| rc_latitude := rcr_latitude request;
     rc_longitude := rcr_longitude request;
     rc_location_name := rcr_location_name request;
     rc_risk_score := float_of_int (FloodRisk.risk_score risk_data);
     rc_severity := FloodRisk.severity risk_data;
     rc_rainfall_mm := FloodRisk.rainfall_mm risk_data;
     rc_elevation_m := FloodRisk.elevation_m risk_data;
     rc_factors := FloodRisk.factors risk_data |}.


End Floods.

(** ** [app/routers/notifications.py] *)

Module Notifications.
Import Py Schemas Models Effects Effects.Notations Http.

(** The texts of the confirmation e-mail, as functions of the request. *)
Record ConfirmationTexts := {
  confirm_subject : string;
  confirm_body : AlertSubscriptionCreate -> string;
  confirm_html : AlertSubscriptionCreate -> string
}.

Definition subscribe_to_alerts
  (notification_service : Notification.NotificationService)
  (G : Notification.Gateways) (C : ConfirmationTexts)
  (subscription : AlertSubscriptionCreate) (db : Session)
  : IO (http AlertSubscription * Session) :=
  if negb (truthy (asc_email subscription))
     && negb (truthy (asc_phone subscription))
  then ret (HTTPException 400
              "At least one contact method (email or phone) is required",
            db)
  else
    let '(db_subscription, db) := Crud.create_subscription db subscription in
    _ <- match asc_email subscription with
         | Some email =>
             if truthy (asc_email subscription)
             then _ <- Notification.send_email notification_service G email
                         (confirm_subject C) (confirm_body C subscription)
                         (Some (confirm_html C subscription)) ;;
                  ret tt
             else ret tt
         | None => ret tt
         end ;;
    ret (Respond db_subscription, db).

Definition get_subscriptions (db : Session) (skip limit : nat)
  (active_only : bool) : list AlertSubscription :=
  Crud.get_subscriptions db skip limit active_only.

Definition get_subscription (db : Session) (subscription_id : Z)
  : http AlertSubscription :=
  match Crud.get_subscription db subscription_id with
  | None => HTTPException 404 "Subscription not found"
  | Some subscription => Respond subscription
  end.

Definition update_subscription (db : Session) (subscription_id : Z)
  (subscription_update : AlertSubscriptionUpdate)
  : http AlertSubscription * Session :=
  let '(updated, db) :=
    Crud.update_subscription db subscription_id subscription_update in
  match updated with
  | None => (HTTPException 404 "Subscription not found", db)
  | Some updated => (Respond updated, db)
  end.

Definition delete_subscription (db : Session) (subscription_id : Z)
  : http MessageResponse * Session :=
  let '(success, db) := Crud.delete_subscription db subscription_id in
  if negb success
  then (HTTPException 404 "Subscription not found", db)
  else (Respond {| mr_message := "Successfully unsubscribed from alerts";
                   mr_detail := Some ("Deleted subscription ID "
                                      ++ str_int subscription_id) |},
        db).


Definition send_alert_notifications (R : Runtime)
  (notification_service : Notification.NotificationService)
  (G : Notification.Gateways) (T : Notification.Templates)
  (db : Session) (flood_id : Z) : IO (http NotificationResult) :=
  match Crud.get_flood_event db flood_id with
  | None => ret (HTTPException 404 "Flood event not found")
  | Some flood_event =>
      let subscriptions :=
        Crud.get_subscriptions_near_location R db
          (ev_latitude flood_event) (ev_longitude flood_event)
          (ev_severity flood_event) in
      match subscriptions with
      | [] =>
          ret (Respond {| nr_sms_sent := 0; nr_sms_failed := 0;
                          nr_emails_sent := 0; nr_emails_failed := 0;
                          nr_message :=
                            "No subscriptions found for this location" |})
      | _ :: _ =>
          let emails := Floods.contacts sub_email subscriptions in
          let phones := Floods.contacts sub_phone subscriptions in
          results <-
            Notification.send_flood_alert notification_service G T
              (ev_location_name flood_event) (ev_severity flood_event)
              (float_of_int (ev_risk_score flood_event))
              (ev_latitude flood_event) (ev_longitude flood_event)
              (Floods.or_None phones) (Floods.or_None emails) ;;
          ret (Respond
                 {| nr_sms_sent := Notification.sms_sent results;
                    nr_sms_failed := Notification.sms_failed results;
                    nr_emails_sent := Notification.emails_sent results;
                    nr_emails_failed := Notification.emails_failed results;
                    nr_message :=
                      "Notified "
                      ++ str_int (Z.of_nat (List.length subscriptions))
                      ++ " subscriptions" |})
      end
  end.

End Notifications.

(** ** The user table: [app/models.py], [app/crud.py], [app/routers/auth.py] *)

Module Auth.
Import Py Schemas Http.

Record User := {
  user_id : Z;
  user_email : string;
  user_username : string;
  user_hashed_password : string;
  user_is_active : Z;
  user_is_admin : Z
}.

(** The rows of the [users] table a [Session] reaches, in storage order. *)
Definition Users := list User.

(** [app/utils/auth.py], which the routers import. *)
Record AuthUtils := {
  get_password_hash : string -> string;
  verify_password : string -> string -> bool;
  create_access_token : string -> string;
  decode_access_token : string -> option string
}.

Definition get_user_by_username (db : Users) (username : string) : option User :=
  find (fun u => user_username u =? username) db.

Definition get_user_by_email (db : Users) (email : string) : option User :=
  find (fun u => user_email u =? email) db.

Definition create_user (db : Users) (user : UserCreate)
  (hashed_password : string) : User * Users :=
  let db_user :=
    {| user_id := Z.of_nat (List.length db) + 1;
       user_email := uc_email user;
       user_username := uc_username user;
       user_hashed_password := hashed_password;
       user_is_active := 1;
       user_is_admin := 0 |} in
  (db_user, (db ++ [db_user])%list).

Definition get_users (db : Users) (skip limit : nat) : list User :=
  firstn limit (skipn skip db).

Definition register_user (A : AuthUtils) (user : UserCreate) (db : Users)
  : http User * Users :=
  match get_user_by_email db (uc_email user) with
  | Some _ => (HTTPException 400 "Email already registered", db)
  | None =>
      match get_user_by_username db (uc_username user) with
      | Some _ => (HTTPException 400 "Username already taken", db)
      | None =>
          let hashed_password := get_password_hash A (uc_password user) in
          let '(created_user, db) := create_user db user hashed_password in
          (Respond created_user, db)
      end
  end.

Definition login (A : AuthUtils) (username password : string) (db : Users)
  : http (string * string) :=
  match get_user_by_username db username with
  | None => HTTPException 401 "Incorrect username or password"
  | Some user =>
      if negb (verify_password A password (user_hashed_password user))
      then HTTPException 401 "Incorrect username or password"
      else if (user_is_active user =? 0)%Z
      then HTTPException 401 "Inactive user account"
      else Respond (create_access_token A (user_username user), "bearer")
  end.

Definition get_current_user (A : AuthUtils) (token : string) (db : Users)
  : http User :=
  match decode_access_token A token with
  | None => HTTPException 401 "Could not validate credentials"
  | Some username =>
      match get_user_by_username db username with
      | None => HTTPException 401 "Could not validate credentials"
      | Some user => Respond user
      end
  end.

End Auth.

(** ** The specification's vocabulary *)

Module Spec.
Import Py Schemas.

(** [x] lies in the half-open bin [[lo, hi)]. *)
Definition in_bin (lo hi x : float) : Prop :=
  (lo <=? x)%float = true /\ (x <? hi)%float = true.

(** [x] lies in the unbounded bin [[lo, inf)]. *)
Definition at_least (lo x : float) : Prop := (lo <=? x)%float = true.

(** Rainfall contribution, mm to points. *)
Definition rainfall_points (r : float) (p : Z) : Prop :=
  (in_bin 0 5 r /\ p = 10) \/ (in_bin 5 15 r /\ p = 20)
  \/ (in_bin 15 30 r /\ p = 35) \/ (in_bin 30 50 r /\ p = 50)
  \/ (at_least 50 r /\ p = 60).

(** Elevation contribution, metres to points. *)
Definition elevation_points (e : float) (p : Z) : Prop :=
  (in_bin 0 10 e /\ p = 40) \/ (in_bin 10 50 e /\ p = 30)
  \/ (in_bin 50 100 e /\ p = 20) \/ (in_bin 100 200 e /\ p = 10)
  \/ (at_least 200 e /\ p = 5).

(** Severity mapping from the total. *)
Definition severity_mapping (total : Z) (s : string) : Prop :=
  (total <= 25 /\ s = "Low") \/ (25 < total <= 50 /\ s = "Medium")
  \/ (50 < total <= 75 /\ s = "High") \/ (75 < total /\ s = "Critical").

(** *** Rainfall resolution *)

(** The current-hour precipitation of the primary provider, when its call
    succeeds. *)
Definition current_hour (P : FloodRisk.Providers) (lat lon : float)
  : option float :=
  match FloodRisk.get_weather P lat lon with
  | Returned data =>
      Some match FloodRisk.w_rain data with
           | Some rain => dict_get rain "1h" 0%float
           | None => 0%float
           end
  | Raised => None
  end.

(** The 3-hour buckets of the next four forecast intervals, added up. *)
Definition forecast_total (data : FloodRisk.ForecastData) : float :=
  match FloodRisk.fc_list data with
  | Some l =>
      fold_left
        (fun total forecast =>
           match FloodRisk.fe_rain forecast with
           | Some rain => (total + dict_get rain "3h" 0)%float
           | None => total
           end)
        (firstn 4 l) 0%float
  | None => 0%float
  end.

(** The forecast query: the total divided by 4, or nothing when the query
    fails or yields no rain. *)
Definition forecast_average (P : FloodRisk.Providers) (lat lon : float)
  : option float :=
  match FloodRisk.get_forecast P lat lon with
  | Returned data =>
      let t := forecast_total data in
      if (0 <? t)%float then Some (t / 4)%float else None
  | Raised => None
  end.

(** The fallback chain in the specification's words: the primary value;
    if it is zero or the primary call fails, the forecast average; if that
    fails or yields nothing, the default 5.0. *)
Definition rainfall_fallback_chain (P : FloodRisk.Providers) (lat lon : float)
  : float :=
  let forecast_or_default :=
    match forecast_average P lat lon with
    | Some a => a
    | None => 5%float
    end in
  match current_hour P lat lon with
  | Some r => if (r =? 0)%float then forecast_or_default else r
  | None => forecast_or_default
  end.

(** The chain the resolver follows: a failed primary call gives the default
    5.0 at once; a primary value other than zero is used; a zero primary
    value gives the forecast average, or 0.0 when the forecast fails or
    yields nothing. *)
Definition rainfall_resolution (P : FloodRisk.Providers) (lat lon : float)
  : float :=
  match current_hour P lat lon with
  | Some r =>
      if (r =? 0)%float
      then match forecast_average P lat lon with
           | Some a => a
           | None => 0%float
           end
      else r
  | None => 5%float
  end.

(** *** Readings *)


(** *** Subscriber matching *)

(** The order Low < Medium < High < Critical as ranks 0 to 3. *)
Definition tier_rank (s : SeverityLevel) : Z :=
  match s with
  | LOW => 0
  | MEDIUM => 1
  | HIGH => 2
  | CRITICAL => 3
  end.

(** The rank of a severity given by name; a name that is no tier ranks 0. *)
Definition severity_rank (s : string) : Z :=
  if s =? "Low" then tier_rank LOW
  else if s =? "Medium" then tier_rank MEDIUM
  else if s =? "High" then tier_rank HIGH
  else if s =? "Critical" then tier_rank CRITICAL
  else 0.



(** The test the loop of the matcher applies to a row, the query's test on
    [is_active] included. *)
Definition row_test (R : Runtime) (lat lon : float) (event_severity : string)
  (sub : Models.AlertSubscription) : bool :=
  (Models.sub_is_active sub =? 1)%Z
  && ((Crud.approx_dist_km R sub lat lon <=? Models.sub_radius_km sub)%float
      && (dict_get Crud.severity_order event_severity 0
          >=? dict_get Crud.severity_order (Models.sub_min_severity sub) 0)%Z).


(** *** Dispatch accounting *)

(** [Some l] and [None] as the recipients they stand for. *)
Definition recipients (l : option (list string)) : list string :=
  match l with
  | Some l => l
  | None => []
  end.

(** How many of the recipients [l], attempted one after the other from log
    [h], have a successful attempt of their own; [req x] is what the
    attempt for [x] adds to the log. *)
Fixpoint successes (ok : Effects.Log -> string -> bool)
  (req : string -> list Effects.Event) (h : Effects.Log) (l : list string) : Z :=
  match l with
  | [] => 0
  | x :: l' => (if ok h x then 1 else 0) + successes ok req (h ++ req x)%list l'
  end.

(** The attempt for one phone number, made after the requests of [h]:
    whether it succeeds, and what it hands to Twilio. *)
Definition sms_ok (self : Notification.NotificationService)
  (tw : Effects.Log -> string -> string -> response Z) (message : string)
  (h : Effects.Log) (phone : string) : bool :=
  forallb truthy [Notification.twilio_sid self; Notification.twilio_token self;
                  Notification.twilio_phone self]
  && match tw h phone message with
     | Returned status_code => (status_code =? 201)%Z
     | Raised => false
     end.

Definition sms_requests (self : Notification.NotificationService)
  (message : string) (phone : string) : list Effects.Event :=
  if forallb truthy [Notification.twilio_sid self; Notification.twilio_token self;
                     Notification.twilio_phone self]
  then [Effects.TwilioPost
          match Notification.twilio_phone self with
          | Some p => p
          | None => ""
          end phone message]
  else [].

(** The same for one e-mail address. *)
Definition email_ok (self : Notification.NotificationService)
  (sm : Effects.Log -> string -> string -> string -> option string
        -> response unit)
  (subject body : string) (html : option string)
  (h : Effects.Log) (email : string) : bool :=
  forallb truthy [Notification.smtp_email self; Notification.smtp_password self]
  && match sm h email subject body html with
     | Returned _ => true
     | Raised => false
     end.

Definition email_requests (self : Notification.NotificationService)
  (subject body : string) (html : option string) (email : string)
  : list Effects.Event :=
  if forallb truthy [Notification.smtp_email self; Notification.smtp_password self]
  then [Effects.SmtpSend
          match Notification.smtp_email self with
          | Some e => e
          | None => ""
          end email subject body (if truthy html then html else None)]
  else [].


End Spec.

(** ** Concrete runtimes, providers and requests used in examples *)

Module Examples.
Import Py Schemas Models.

(** A power function that squares and takes roots with the correctly
    rounded operations. *)
Definition pow_exact (x y : float) : float :=
  if (y =? 2)%float then (x * x)%float
  else if (y =? 0.5)%float then sqrt x
  else nan.

(** A string hash keyed by a per-process salt. *)
Definition salted_hash (salt : Z) (s : string) : Z :=
  salt + Z.of_nat (String.length s).

(** The text of a number is given for 0.0 only, the one coordinate the
    examples use. *)
Definition runtime (salt : Z) : Runtime :=
  {| py_hash := salted_hash salt;
     float_str := fun _ => "0.0";
     float_pow := pow_exact |}.

(** Every provider call fails. *)
Definition offline : FloodRisk.Providers :=
  {| FloodRisk.get_weather := fun _ _ => Raised;
     FloodRisk.get_forecast := fun _ _ => Raised;
     FloodRisk.get_elevation := fun _ _ => Raised |}.

(** The primary provider reports no rain and the forecast call fails. *)
Definition dry_without_forecast : FloodRisk.Providers :=
  {| FloodRisk.get_weather := fun _ _ => Returned {| FloodRisk.w_rain := None |};
     FloodRisk.get_forecast := fun _ _ => Raised;
     FloodRisk.get_elevation := fun _ _ => Raised |}.

(** The primary call fails while the forecast announces 8 mm in its first
    3-hour bucket. *)
Definition forecast_only : FloodRisk.Providers :=
  {| FloodRisk.get_weather := fun _ _ => Raised;
     FloodRisk.get_forecast := fun _ _ =>
       Returned {| FloodRisk.fc_list :=
                     Some [ {| FloodRisk.fe_rain := Some [("3h", 8%float)] |} ] |};
     FloodRisk.get_elevation := fun _ _ => Raised |}.

(** No elevation key configured. *)
Definition risk_service : FloodRisk.FloodRiskService :=
  {| FloodRisk.openweather_api_key := "key";
     FloodRisk.google_elevation_api_key := None |}.


(** A request whose reading scores 100 (Critical). *)
Definition downpour : FloodEventCreate :=
  {| fec_location_name := "Quay";
     fec_latitude := 0%float;
     fec_longitude := 0%float;
     fec_description := None;
     fec_rainfall_mm := Some 60%float;
     fec_elevation_m := Some 5%float |}.

(** A request whose reading scores 15 (Low). *)
Definition drizzle : FloodEventCreate :=
  {| fec_location_name := "Ridge";
     fec_latitude := 0%float;
     fec_longitude := 0%float;
     fec_description := None;
     fec_rainfall_mm := Some 1%float;
     fec_elevation_m := Some 300%float |}.

Definition empty_db : Session :=
  {| flood_events := []; alert_subscriptions := [] |}.

(** An active subscription at the origin whose [min_severity] is no tier
    name. *)
Definition lowercase_high : AlertSubscription :=
  {| sub_id := 1;
     sub_email := Some "a@example.org";
     sub_phone := None;
     sub_latitude := 0%float;
     sub_longitude := 0%float;
     sub_radius_km := 5%float;
     sub_min_severity := "high";
     sub_is_active := 1 |}.

(** The request that creates [lowercase_high]; it passes validation. *)
Definition lowercase_high_request : AlertSubscriptionCreate :=
  {| asc_email := Some "a@example.org";
     asc_phone := None;
     asc_latitude := 0%float;
     asc_longitude := 0%float;
     asc_radius_km := 5%float;
     asc_min_severity := "high" |}.

Definition one_subscriber : Session :=
  {| flood_events := []; alert_subscriptions := [lowercase_high] |}.

(** Twilio and SMTP credentials all present. *)
Definition notifier : Notification.NotificationService :=
  {| Notification.twilio_sid := Some "sid";
     Notification.twilio_token := Some "token";
     Notification.twilio_phone := Some "+10000000000";
     Notification.smtp_server := "smtp.gmail.com";
     Notification.smtp_port := 587;
     Notification.smtp_email := Some "alerts@example.org";
     Notification.smtp_password := Some "secret" |}.

(** Twilio refuses every message, the SMTP session always completes. *)
Definition sms_down : Notification.Gateways :=
  {| Notification.twilio := fun _ _ _ => Returned 500;
     Notification.smtp := fun _ _ _ _ _ => Returned tt |}.

Definition plain_templates : Notification.Templates :=
  {| Notification.sms_message := fun loc lvl _ _ _ => lvl ++ " risk at " ++ loc;
     Notification.email_subject := fun loc lvl _ _ _ => lvl ++ " risk at " ++ loc;
     Notification.email_body := fun loc lvl _ _ _ => lvl ++ " risk at " ++ loc;
     Notification.email_html := fun loc lvl _ _ _ => lvl ++ " risk at " ++ loc |}.

End Examples.

(** ** Further vocabulary and examples *)

Module Vocabulary.
Import Py Schemas Models.

(** The runtime's power function sends 0.0 to 0.0 under the exponents 2
    and 0.5 (CPython returns 0.0 for a zero base and a positive exponent
    before it calls [pow]). *)
Definition power_of_zero (R : Runtime) : Prop :=
  float_pow R 0 2 = 0%float /\ float_pow R 0 0.5 = 0%float.

(** An event is a request to Twilio. *)
Definition is_sms (e : Effects.Event) : bool :=
  match e with
  | Effects.TwilioPost _ _ _ => true
  | _ => false
  end.

(** The phone numbers and the addresses the requests of a log were made
    to, oldest first. *)
Definition sms_recipients (l : Effects.Log) : list string :=
  flat_map (fun e => match e with
                     | Effects.TwilioPost _ to _ => [to]
                     | _ => []
                     end) l.

Definition email_recipients (l : Effects.Log) : list string :=
  flat_map (fun e => match e with
                     | Effects.SmtpSend _ to _ _ _ => [to]
                     | _ => []
                     end) l.

(** Whether the credentials of a channel are all set. *)
Definition sms_configured (self : Notification.NotificationService) : bool :=
  forallb truthy [Notification.twilio_sid self; Notification.twilio_token self;
                  Notification.twilio_phone self].

Definition email_configured (self : Notification.NotificationService) : bool :=
  forallb truthy [Notification.smtp_email self; Notification.smtp_password self].

(** A notifier without Twilio credentials. *)
Definition email_only : Notification.NotificationService :=
  {| Notification.twilio_sid := None;
     Notification.twilio_token := None;
     Notification.twilio_phone := None;
     Notification.smtp_server := "smtp.gmail.com";
     Notification.smtp_port := 587;
     Notification.smtp_email := Some "alerts@example.org";
     Notification.smtp_password := Some "secret" |}.

(** Twilio answers every message with the given status. *)
Definition twilio_answers (status : Z) : Notification.Gateways :=
  {| Notification.twilio := fun _ _ _ => Returned status;
     Notification.smtp := fun _ _ _ _ _ => Raised |}.

(** The storage order stands for the engine's order. *)
Definition stored_order (l : list FloodEvent) : list FloodEvent := l.

(** A Low event stored at the origin, next to one subscriber who asks for
    Low alerts. *)
Definition low_event : FloodEvent :=
  {| ev_id := 1;
     ev_location_name := "Ridge";
     ev_latitude := 0%float;
     ev_longitude := 0%float;
     ev_severity := "Low";
     ev_risk_score := 15;
     ev_rainfall_mm := 1%float;
     ev_elevation_m := 300%float;
     ev_description := None |}.

Definition low_subscriber : AlertSubscription :=
  {| sub_id := 7;
     sub_email := Some "c@example.org";
     sub_phone := Some "+15550111";
     sub_latitude := 0%float;
     sub_longitude := 0%float;
     sub_radius_km := 5%float;
     sub_min_severity := "Low";
     sub_is_active := 1 |}.

Definition low_db : Session :=
  {| flood_events := [low_event]; alert_subscriptions := [low_subscriber] |}.

(** A request for alerts by e-mail around the origin. *)
Definition by_email : AlertSubscriptionCreate :=
  {| asc_email := Some "d@example.org";
     asc_phone := None;
     asc_latitude := 12.5%float;
     asc_longitude := (-45.25)%float;
     asc_radius_km := 5%float;
     asc_min_severity := "Medium" |}.

(** An update that only switches a subscription off. *)
Definition switch_off : AlertSubscriptionUpdate :=
  {| asu_email := None;
     asu_phone := None;
     asu_radius_km := None;
     asu_min_severity := None;
     asu_is_active := Some false |}.

(** The elevation provider reports 86 m below sea level. *)
Definition dead_sea : FloodRisk.Providers :=
  {| FloodRisk.get_weather := fun _ _ => Raised;
     FloodRisk.get_forecast := fun _ _ => Raised;
     FloodRisk.get_elevation := fun _ _ =>
       Returned {| FloodRisk.el_status := Some "OK";
                   FloodRisk.el_results := Some [(-86)%float] |} |}.

Definition keyed_service : FloodRisk.FloodRiskService :=
  {| FloodRisk.openweather_api_key := "key";
     FloodRisk.google_elevation_api_key := Some "AIza" |}.

(** Forecasts of five and of eight intervals that agree on the first
    five. *)
Definition wet (mm : float) : FloodRisk.ForecastEntry :=
  {| FloodRisk.fe_rain := Some [("3h", mm)] |}.

Definition five_intervals : list FloodRisk.ForecastEntry :=
  [wet 1; wet 2; wet 3; wet 4; wet 50].

Definition forecasting (l : list FloodRisk.ForecastEntry) : FloodRisk.Providers :=
  {| FloodRisk.get_weather := fun _ _ => Raised;
     FloodRisk.get_forecast := fun _ _ =>
       Returned {| FloodRisk.fc_list := Some l |};
     FloodRisk.get_elevation := fun _ _ => Raised |}.

(** Stand-ins for the password and token utilities. *)
Definition toy_auth : Auth.AuthUtils :=
  {| Auth.get_password_hash := fun p => "h:" ++ p;
     Auth.verify_password := fun p h => h =? "h:" ++ p;
     Auth.create_access_token := fun u => "t:" ++ u;
     Auth.decode_access_token := fun t =>
       match t with
       | String "t"%char (String ":"%char u) => Some u
       | _ => None
       end |}.

Definition new_user : UserCreate :=
  {| uc_email := "e@example.org";
     uc_username := "erin";
     uc_password := "correct horse" |}.

End Vocabulary.

(** ** Order facts on binary64 numbers

    The comparisons of [float] are those of [SFcompare] on the decoded
    number; on numbers other than NaN they form a total preorder. *)

Module FloatOrder.

Lemma SFcompare_antisym x y :
  SFcompare y x = option_map CompOpp (SFcompare x y).
Proof.
  destruct x as [sx|sx| |sx mx ex], y as [sy|sy| |sy my ey]; simpl;
    try reflexivity;
    try (destruct sx; reflexivity); try (destruct sy; reflexivity);
    try (destruct sx, sy; reflexivity).
  destruct sx, sy; simpl; try reflexivity;
    change (Pos.compare_cont Eq) with Pos.compare;
    destruct (Z.compare_spec ex ey), (Z.compare_spec ey ex);
    try lia; simpl; try reflexivity;
    destruct (Pos.compare_spec mx my), (Pos.compare_spec my mx);
    try lia; reflexivity.
Qed.

Lemma SFleb_SFltb_trans x y z :
  SFleb x y = true -> SFltb y z = true -> SFltb x z = true.
Proof.
  unfold SFleb, SFltb.
  destruct x as [sx|sx| |sx mx ex], y as [sy|sy| |sy my ey],
           z as [sz|sz| |sz mz ez]; simpl;
    try discriminate; try reflexivity;
    try (destruct sx; simpl; try discriminate; try reflexivity);
    try (destruct sy; simpl; try discriminate; try reflexivity);
    try (destruct sz; simpl; try discriminate; try reflexivity).
  all: change (Pos.compare_cont Eq) with Pos.compare;
    destruct (Z.compare_spec ex ey), (Z.compare_spec ey ez),
      (Z.compare_spec ex ez); try lia; simpl;
      try discriminate; try reflexivity;
    destruct (Pos.compare_spec mx my), (Pos.compare_spec my mz),
      (Pos.compare_spec mx mz); try lia; simpl;
      try discriminate; try reflexivity.
Qed.

Lemma SFcompare_defined a x c :
  SFleb a x = true -> SFeqb c c = true -> exists o, SFcompare x c = Some o.
Proof.
  unfold SFleb, SFeqb.
  destruct a, x, c; simpl; try discriminate; eauto.
Qed.

(** [x <= y] and [y < z] give [x < z]. *)
Lemma leb_ltb_trans (x y z : float) :
  (x <=? y)%float = true -> (y <? z)%float = true -> (x <? z)%float = true.
Proof. rewrite leb_spec, !ltb_spec. apply SFleb_SFltb_trans. Qed.

(** [x < y] gives [x <= y]. *)
Lemma ltb_leb (x y : float) :
  (x <? y)%float = true -> (x <=? y)%float = true.
Proof.
  rewrite leb_spec, ltb_spec. unfold SFleb, SFltb.
  destruct (SFcompare _ _) as [[ | | ]|]; congruence.
Qed.

(** [x <= y] excludes [y < x]. *)
Lemma leb_not_ltb (x y : float) :
  (x <=? y)%float = true -> (y <? x)%float = false.
Proof.
  rewrite leb_spec, ltb_spec. unfold SFleb, SFltb.
  rewrite (SFcompare_antisym (Prim2SF x) (Prim2SF y)).
  destruct (SFcompare _ _) as [[ | | ]|]; simpl; congruence.
Qed.

(** A number that is not NaN and not below the number [c] is at least [c]. *)
Lemma not_ltb_leb (a x c : float) :
  (a <=? x)%float = true -> (c =? c)%float = true ->
  (x <? c)%float = false -> (c <=? x)%float = true.
Proof.
  rewrite !leb_spec, eqb_spec, ltb_spec. intros Ha Hc.
  destruct (SFcompare_defined _ _ _ Ha Hc) as [o Ho].
  unfold SFleb, SFltb.
  rewrite (SFcompare_antisym (Prim2SF x) (Prim2SF c)), Ho.
  destruct o; simpl; congruence.
Qed.

(** [max(0, x)] is never negative, whatever [x] is. *)
Lemma max0_nonneg (x : float) : (0 <=? Py.max0 x)%float = true.
Proof.
  unfold Py.max0. destruct (0 <? x)%float eqn:E.
  - now apply ltb_leb.
  - reflexivity.
Qed.


End FloatOrder.

(** ** The risk scorer *)

Module ScorerFacts.
Import Py Schemas FloodRisk Spec FloatOrder.

(** Closes a goal [(c <=? x) = true] from [(x <? c) = false] in context,
    for a number [x] known to be at least [0]. *)
Ltac lower_bound :=
  match goal with
  | |- (?c <=? ?x)%float = true =>
      solve [ assumption
            | apply (not_ltb_leb 0 x c); [assumption | reflexivity | assumption] ]
  end.

(** Two bins that do not overlap cannot both hold [x]. *)
Ltac disjoint_bins :=
  match goal with
  | H1 : (?lo <=? ?x)%float = true, H2 : (?x <? ?hi)%float = true |- _ =>
      let H := fresh in
      pose proof (leb_ltb_trans lo x hi H1 H2) as H;
      vm_compute in H; discriminate H
  end.

Lemma rainfall_points_functional r p q :
  rainfall_points r p -> rainfall_points r q -> p = q.
Proof.
  unfold rainfall_points, in_bin, at_least.
  intros Hp Hq.
  repeat match goal with
         | H : _ \/ _ |- _ => destruct H
         | H : _ /\ _ |- _ => destruct H
         end; subst; try reflexivity; exfalso; disjoint_bins.
Qed.

Lemma elevation_points_functional e p q :
  elevation_points e p -> elevation_points e q -> p = q.
Proof.
  unfold elevation_points, in_bin, at_least.
  intros Hp Hq.
  repeat match goal with
         | H : _ \/ _ |- _ => destruct H
         | H : _ /\ _ |- _ => destruct H
         end; subst; try reflexivity; exfalso; disjoint_bins.
Qed.

Lemma rainfall_score_bins r :
  at_least 0 r -> rainfall_points r (rainfall_score r).
Proof.
  unfold rainfall_points, rainfall_score, in_bin, at_least. intros H0.
  destruct (r <? 5)%float eqn:E1; [left; auto|].
  destruct (r <? 15)%float eqn:E2;
    [right; left; repeat split; auto; lower_bound|].
  destruct (r <? 30)%float eqn:E3;
    [right; right; left; repeat split; auto; lower_bound|].
  destruct (r <? 50)%float eqn:E4;
    [right; right; right; left; repeat split; auto; lower_bound|].
  right; right; right; right; split; auto; lower_bound.
Qed.

Lemma elevation_score_bins e :
  at_least 0 e -> elevation_points e (elevation_score e).
Proof.
  unfold elevation_points, elevation_score, in_bin, at_least. intros H0.
  destruct (e <? 10)%float eqn:E1; [left; auto|].
  destruct (e <? 50)%float eqn:E2;
    [right; left; repeat split; auto; lower_bound|].
  destruct (e <? 100)%float eqn:E3;
    [right; right; left; repeat split; auto; lower_bound|].
  destruct (e <? 200)%float eqn:E4;
    [right; right; right; left; repeat split; auto; lower_bound|].
  right; right; right; right; split; auto; lower_bound.
Qed.

Lemma severity_of_mapping total :
  severity_mapping total (value (severity_of total)).
Proof.
  unfold severity_mapping, severity_of.
  destruct (Z.leb_spec total 25); [left; auto|].
  destruct (Z.leb_spec total 50); [right; left; split; [lia|reflexivity]|].
  destruct (Z.leb_spec total 75);
    [right; right; left; split; [lia|reflexivity]|].
  right; right; right; split; [lia|reflexivity].
Qed.

(** The rainfall points of the scorer never decrease with the rainfall, and
    its elevation points never increase with the elevation. *)
Lemma rainfall_score_mono r1 r2 :
  (r1 <=? r2)%float = true -> rainfall_score r1 <= rainfall_score r2.
Proof.
  intros H. unfold rainfall_score.
  pose proof (leb_ltb_trans r1 r2 5 H).
  pose proof (leb_ltb_trans r1 r2 15 H).
  pose proof (leb_ltb_trans r1 r2 30 H).
  pose proof (leb_ltb_trans r1 r2 50 H).
  destruct (r2 <? 5)%float, (r2 <? 15)%float, (r2 <? 30)%float,
    (r2 <? 50)%float;
    repeat match goal with
           | H : true = true -> _ |- _ => rewrite (H eq_refl); clear H
           end;
    destruct (r1 <? 5)%float, (r1 <? 15)%float, (r1 <? 30)%float,
      (r1 <? 50)%float; lia.
Qed.

Lemma elevation_score_antimono e1 e2 :
  (e1 <=? e2)%float = true -> elevation_score e2 <= elevation_score e1.
Proof.
  intros H. unfold elevation_score.
  pose proof (leb_ltb_trans e1 e2 10 H).
  pose proof (leb_ltb_trans e1 e2 50 H).
  pose proof (leb_ltb_trans e1 e2 100 H).
  pose proof (leb_ltb_trans e1 e2 200 H).
  destruct (e2 <? 10)%float, (e2 <? 50)%float, (e2 <? 100)%float,
    (e2 <? 200)%float;
    repeat match goal with
           | H : true = true -> _ |- _ => rewrite (H eq_refl); clear H
           end;
    destruct (e1 <? 10)%float, (e1 <? 50)%float, (e1 <? 100)%float,
      (e1 <? 200)%float; lia.
Qed.

(** C1.  For every rainfall and elevation that are at least 0, the scorer
    assigns the rainfall points of the half-open, lower-inclusive bins
    [0,5)->10, [5,15)->20, [15,30)->35, [30,50)->50, [50,inf)->60 and the
    elevation points of [0,10)->40, [10,50)->30, [50,100)->20,
    [100,200)->10, [200,inf)->5; the total it returns is their sum; the
    severity it returns is Low up to 25, Medium up to 50, High up to 75 and
    Critical above.  At the boundaries, 5.0 mm scores 20 rainfall points and
    10.0 m scores 30 elevation points. *)
Theorem calculate_risk_score_bins (rainfall_mm elevation_m : float) :
  at_least 0 rainfall_mm -> at_least 0 elevation_m ->
  (exists rp ep,
      rainfall_points rainfall_mm rp /\ elevation_points elevation_m ep /\
      fst (calculate_risk_score rainfall_mm elevation_m) = rp + ep /\
      severity_mapping (rp + ep)
        (snd (calculate_risk_score rainfall_mm elevation_m)))
  /\ (forall rp, rainfall_points 5 rp -> rp = 20)
  /\ (forall ep, elevation_points 10 ep -> ep = 30)
  /\ rainfall_score 5 = 20 /\ elevation_score 10 = 30.
Proof.
  intros Hr He. split; [|split; [|split; [|split]]].
  - exists (rainfall_score rainfall_mm), (elevation_score elevation_m).
    split; [now apply rainfall_score_bins|].
    split; [now apply elevation_score_bins|].
    split; [reflexivity|].
    apply severity_of_mapping.
  - intros rp H.
    apply (rainfall_points_functional 5 rp 20 H).
    right; left. repeat split; reflexivity.
  - intros ep H.
    apply (elevation_points_functional 10 ep 30 H).
    right; left. repeat split; reflexivity.
  - reflexivity.
  - reflexivity.
Qed.

Lemma calculate_risk_score_bins_witness :
  at_least 0 35.5 /\ at_least 0 15.5 /\
  ((exists rp ep,
      rainfall_points 35.5 rp /\ elevation_points 15.5 ep /\
      fst (calculate_risk_score 35.5 15.5) = rp + ep /\
      severity_mapping (rp + ep) (snd (calculate_risk_score 35.5 15.5)))
   /\ (forall rp, rainfall_points 5 rp -> rp = 20)
   /\ (forall ep, elevation_points 10 ep -> ep = 30)
   /\ rainfall_score 5 = 20 /\ elevation_score 10 = 30).
Proof.
  split; [reflexivity|]. split; [reflexivity|].
  apply (calculate_risk_score_bins 35.5 15.5); reflexivity.
Defined.

(** C7.  With the elevation held fixed the total never decreases when the
    rainfall grows, and with the rainfall held fixed it never increases
    when the elevation grows. *)
Theorem calculate_risk_score_monotone (r1 r2 e1 e2 : float) :
  (r1 <=? r2)%float = true -> (e1 <=? e2)%float = true ->
  (forall e, fst (calculate_risk_score r1 e) <= fst (calculate_risk_score r2 e))
  /\ (forall r, fst (calculate_risk_score r e2) <= fst (calculate_risk_score r e1)).
Proof.
  intros Hr He. split; intros x; simpl.
  - pose proof (rainfall_score_mono r1 r2 Hr). lia.
  - pose proof (elevation_score_antimono e1 e2 He). lia.
Qed.

Lemma calculate_risk_score_monotone_witness :
  (3 <=? 20)%float = true /\ (5 <=? 120)%float = true /\
  ((forall e, fst (calculate_risk_score 3 e) <= fst (calculate_risk_score 20 e))
   /\ (forall r, fst (calculate_risk_score r 120) <= fst (calculate_risk_score r 5))).
Proof.
  split; [reflexivity|]. split; [reflexivity|].
  apply (calculate_risk_score_monotone 3 20 5 120); reflexivity.
Defined.

(** C9.  The total is always the sum of one value of 10, 20, 35, 50, 60 and
    one value of 5, 10, 20, 30, 40; so it lies between 15 and 100 and is
    never 26 and never 76.  This holds for every pair of inputs, in
    particular for those that are at least 0. *)
Theorem calculate_risk_score_range (rainfall_mm elevation_m : float) :
  let total := fst (calculate_risk_score rainfall_mm elevation_m) in
  (exists a b, In a [10; 20; 35; 50; 60] /\ In b [5; 10; 20; 30; 40]
               /\ total = a + b)
  /\ 15 <= total <= 100 /\ total <> 26 /\ total <> 76.
Proof.
  simpl. unfold rainfall_score, elevation_score.
  split.
  - eexists; eexists. split; [|split; [|reflexivity]].
    + destruct (rainfall_mm <? 5)%float, (rainfall_mm <? 15)%float,
        (rainfall_mm <? 30)%float, (rainfall_mm <? 50)%float; simpl; auto 6.
    + destruct (elevation_m <? 10)%float, (elevation_m <? 50)%float,
        (elevation_m <? 100)%float, (elevation_m <? 200)%float; simpl; auto 6.
  - destruct (rainfall_mm <? 5)%float, (rainfall_mm <? 15)%float,
      (rainfall_mm <? 30)%float, (rainfall_mm <? 50)%float,
      (elevation_m <? 10)%float, (elevation_m <? 50)%float,
      (elevation_m <? 100)%float, (elevation_m <? 200)%float; lia.
Qed.

End ScorerFacts.

(** ** The environmental data resolver *)

Module ResolverFacts.
Import Py Schemas FloodRisk Spec FloatOrder Examples.

(** Two numbers that one comparison tells apart are different. *)
Lemma float_neq (x y : float) : (x =? y)%float <> (y =? y)%float -> x <> y.
Proof. intros H E. apply H. now rewrite E. Qed.

Lemma forecast_rainfall_average P lat lon :
  _get_forecast_rainfall P lat lon =
  match forecast_average P lat lon with
  | Some a => a
  | None => 0%float
  end.
Proof.
  unfold _get_forecast_rainfall, forecast_average, forecast_total.
  destruct (get_forecast P lat lon) as [|data]; [reflexivity|].
  cbv zeta.
  match goal with |- context [(0 <? ?t)%float] => destruct (0 <? t)%float end;
    reflexivity.
Qed.

(** The resolver follows [rainfall_resolution]. *)
Lemma get_rainfall_data_resolution P lat lon :
  get_rainfall_data P lat lon = rainfall_resolution P lat lon.
Proof.
  unfold get_rainfall_data, rainfall_resolution, current_hour.
  destruct (get_weather P lat lon) as [|data]; [reflexivity|].
  cbv zeta.
  match goal with |- context [(?r =? 0)%float] => destruct (r =? 0)%float end;
    [apply forecast_rainfall_average | reflexivity].
Qed.

(** C2, as the code has it.  Without an override the rainfall is: the
    default 5.0 as soon as the primary call fails (the forecast is not
    consulted); the primary value when it is not zero; when it is zero, the
    sum of the 3-hour buckets of the first four forecast intervals divided
    by 4 if that sum is positive, and 0.0 if the forecast call fails or
    yields nothing.  With an override the rainfall is the override. *)
Theorem rainfall_resolved_by_chain (R : Runtime) (P : Providers)
  (self : FloodRiskService) (lat lon : float) (eo : option float) :
  get_rainfall_data P lat lon = rainfall_resolution P lat lon
  /\ rainfall_mm (calculate_flood_risk R P self lat lon None eo)
     = rainfall_resolution P lat lon
  /\ (forall r, rainfall_mm (calculate_flood_risk R P self lat lon (Some r) eo)
                = r)
  /\ (get_weather P lat lon = Raised -> get_rainfall_data P lat lon = 5%float)
  /\ (forall r, current_hour P lat lon = Some r -> (r =? 0)%float = false ->
                get_rainfall_data P lat lon = r)
  /\ (forall r, current_hour P lat lon = Some r -> (r =? 0)%float = true ->
                forecast_average P lat lon = None ->
                get_rainfall_data P lat lon = 0%float)
  /\ (forall r a, current_hour P lat lon = Some r -> (r =? 0)%float = true ->
                  forecast_average P lat lon = Some a ->
                  get_rainfall_data P lat lon = a).
Proof.
  split; [apply get_rainfall_data_resolution|].
  split; [unfold calculate_flood_risk; simpl;
          apply get_rainfall_data_resolution|].
  split; [reflexivity|].
  rewrite get_rainfall_data_resolution. unfold rainfall_resolution.
  split; [|split; [|split]].
  - intros E. unfold current_hour. now rewrite E.
  - intros r -> ->. reflexivity.
  - intros r -> -> ->. reflexivity.
  - intros r a -> -> ->. reflexivity.
Qed.

(** C2, as the specification words it, fails twice: after a dry primary
    reading a failed forecast gives 0.0 where the chain promises 5.0, and
    after a failed primary call the forecast is never asked. *)
Lemma get_rainfall_data_not_fallback_chain :
  get_rainfall_data dry_without_forecast 0 0 = 0%float
  /\ rainfall_fallback_chain dry_without_forecast 0 0 = 5%float
  /\ get_rainfall_data forecast_only 0 0 = 5%float
  /\ rainfall_fallback_chain forecast_only 0 0 = 2%float
  /\ ~ (forall P lat lon,
           get_rainfall_data P lat lon = rainfall_fallback_chain P lat lon).
Proof.
  repeat split; try reflexivity.
  intros H. specialize (H dry_without_forecast 0%float 0%float).
  revert H. apply float_neq. vm_compute. discriminate.
Qed.


(** C6, at latitude 0.0 and longitude 0.0: the mock elevation is 0 under
    one hash salt and 17 under another, so equal coordinates do not fix the
    result across processes. *)
Theorem mock_elevation_varies_with_salt :
  _mock_elevation (runtime 0) 0 0 = 0%float
  /\ _mock_elevation (runtime 60) 0 0 = 17%float
  /\ _mock_elevation (runtime 0) 0 0 <> _mock_elevation (runtime 60) 0 0.
Proof.
  repeat split; try reflexivity.
  apply float_neq. vm_compute. discriminate.
Qed.





End ResolverFacts.

(** ** The subscriber matcher *)

Module MatcherFacts.
Import Py Schemas Models Crud Spec FloatOrder Examples.

(** A loop that appends the elements passing a test is a filter. *)
Lemma fold_left_append_filter {A} (p : A -> bool) (l acc : list A) :
  fold_left (fun acc x => if p x then (acc ++ [x])%list else acc) l acc
  = (acc ++ filter p l)%list.
Proof.
  revert acc. induction l as [|x l IH]; intros acc; simpl.
  - now rewrite app_nil_r.
  - rewrite IH. destruct (p x); [|reflexivity].
    now rewrite <- app_assoc.
Qed.

Lemma filter_twice {A} (p q : A -> bool) (l : list A) :
  filter q (filter p l) = filter (fun x => p x && q x) l.
Proof.
  induction l as [|x l IH]; simpl; [reflexivity|].
  destruct (p x); simpl; [destruct (q x)|]; now rewrite IH.
Qed.

Lemma get_subscriptions_near_location_rows R db lat lon sev :
  get_subscriptions_near_location R db lat lon sev
  = filter (row_test R lat lon sev) (alert_subscriptions db).
Proof.
  unfold get_subscriptions_near_location.
  rewrite (fold_left_append_filter
             (fun sub =>
                (approx_dist_km R sub lat lon <=? sub_radius_km sub)%float
                && (dict_get severity_order sev 0
                    >=? dict_get severity_order (sub_min_severity sub) 0)%Z)).
  simpl. apply filter_twice.
Qed.

(** The dictionary of the matcher ranks a name as [severity_rank] does. *)
Lemma severity_order_rank (s : string) :
  dict_get severity_order s 0 = severity_rank s.
Proof.
  unfold dict_get, severity_order, severity_rank, tier_rank.
  cbn [dict_lookup].
  rewrite (String.eqb_sym "Low" s), (String.eqb_sym "Medium" s),
    (String.eqb_sym "High" s), (String.eqb_sym "Critical" s).
  destruct (s =? "Low"); [reflexivity|].
  destruct (s =? "Medium"); [reflexivity|].
  destruct (s =? "High"); [reflexivity|].
  destruct (s =? "Critical"); reflexivity.
Qed.


Lemma severity_rank_nonneg (s : string) : 0 <= severity_rank s.
Proof.
  unfold severity_rank.
  destruct (s =? "Low"); [simpl; lia|].
  destruct (s =? "Medium"); [simpl; lia|].
  destruct (s =? "High"); [simpl; lia|].
  destruct (s =? "Critical"); simpl; lia.
Qed.

Lemma severity_rank_unknown (s : string) :
  ~ In s ["Low"; "Medium"; "High"; "Critical"] -> severity_rank s = 0.
Proof.
  intros H. unfold severity_rank.
  destruct (String.eqb_spec s "Low") as [->|_];
    [exfalso; apply H; simpl; auto|].
  destruct (String.eqb_spec s "Medium") as [->|_];
    [exfalso; apply H; simpl; auto|].
  destruct (String.eqb_spec s "High") as [->|_];
    [exfalso; apply H; simpl; auto|].
  destruct (String.eqb_spec s "Critical") as [->|_];
    [exfalso; apply H; simpl; auto|].
  reflexivity.
Qed.






(** The subscription schema lets any [min_severity] through, and the row
    keeps it as given. *)
Lemma create_subscription_keeps_min_severity :
  AlertSubscriptionCreate_valid lowercase_high_request = true
  /\ fst (create_subscription empty_db lowercase_high_request) = lowercase_high
  /\ snd (create_subscription empty_db lowercase_high_request) = one_subscriber.
Proof. repeat split; reflexivity. Qed.

(** C10.  A subscription whose [min_severity] is none of the four tier
    names is ranked 0 by the matcher, as Low is, and so is returned for an
    event of any severity as soon as it is active and within its radius. *)
Theorem unknown_min_severity_ranks_as_low (R : Runtime) (db : Session)
  (lat lon : float) (event_severity : string) (sub : AlertSubscription) :
  In sub (alert_subscriptions db) ->
  sub_is_active sub = 1 ->
  ~ In (sub_min_severity sub) ["Low"; "Medium"; "High"; "Critical"] ->
  (approx_dist_km R sub lat lon <=? sub_radius_km sub)%float = true ->
  dict_get severity_order (sub_min_severity sub) 0 = 0
  /\ dict_get severity_order (sub_min_severity sub) 0
     = dict_get severity_order "Low" 0
  /\ In sub (get_subscriptions_near_location R db lat lon event_severity).
Proof.
  intros Hin Hact Hname Hdist.
  assert (E : dict_get severity_order (sub_min_severity sub) 0 = 0).
  { rewrite severity_order_rank. now apply severity_rank_unknown. }
  split; [exact E|]. split; [rewrite E; reflexivity|].
  rewrite get_subscriptions_near_location_rows, filter_In.
  split; [exact Hin|].
  unfold row_test. rewrite Hdist, E, severity_order_rank.
  rewrite andb_true_iff, Z.eqb_eq, Z.geb_leb. simpl. split; [exact Hact|].
  apply Z.leb_le, severity_rank_nonneg.
Qed.

Lemma unknown_min_severity_ranks_as_low_witness :
  dict_get severity_order "high" 0 = 0
  /\ dict_get severity_order "high" 0 = dict_get severity_order "Low" 0
  /\ In lowercase_high
       (get_subscriptions_near_location (runtime 0) one_subscriber 0 0 "Low").
Proof.
  apply (unknown_min_severity_ranks_as_low (runtime 0) one_subscriber
           0 0 "Low" lowercase_high).
  - simpl. auto.
  - reflexivity.
  - simpl. intros [H|[H|[H|[H|[]]]]]; discriminate H.
  - reflexivity.
Defined.

End MatcherFacts.

(** ** The alert dispatcher *)

Module DispatchFacts.
Import Py Effects Effects.Notations Notification Spec Examples.

Lemma successes_bounds ok req h l :
  0 <= successes ok req h l <= Z.of_nat (List.length l).
Proof.
  revert h. induction l as [|x l IH]; intros h.
  - simpl. lia.
  - specialize (IH (h ++ req x)%list).
    change (successes ok req h (x :: l))
      with ((if ok h x then 1 else 0) + successes ok req (h ++ req x)%list l).
    change (List.length (x :: l)) with (S (List.length l)).
    destruct (ok h x); lia.
Qed.

(** One SMS attempt never raises: it answers whether the attempt succeeded
    and leaves its request, if it made one, in the log. *)
Lemma send_sms_run self G phone message h :
  send_sms self G phone message h
  = (Ok (sms_ok self (twilio G) message h phone),
     (h ++ sms_requests self message phone)%list).
Proof.
  unfold send_sms, sms_ok, sms_requests.
  destruct (forallb truthy _); simpl.
  - unfold try_except, bind, request, ret.
    destruct (twilio G h phone message) as [|status_code]; [reflexivity|].
    destruct (status_code =? 201)%Z; reflexivity.
  - unfold ret. now rewrite app_nil_r.
Qed.

Lemma send_email_run self G email subject body html h :
  send_email self G email subject body html h
  = (Ok (email_ok self (smtp G) subject body html h email),
     (h ++ email_requests self subject body html email)%list).
Proof.
  unfold send_email, email_ok, email_requests.
  destruct (forallb truthy _); simpl.
  - unfold try_except, bind, request, ret.
    destruct (smtp G h email subject body html) as [|[]]; reflexivity.
  - unfold ret. now rewrite app_nil_r.
Qed.

(** The SMS loop: every number is attempted once, in order, whatever the
    earlier attempts gave. *)
Lemma sms_loop self G message l results h :
  for_each l
    (fun phone results =>
       success <- send_sms self G phone message ;;
       if success : bool
       then ret {| sms_sent := sms_sent results + 1;
                   sms_failed := sms_failed results;
                   emails_sent := emails_sent results;
                   emails_failed := emails_failed results |}
       else ret {| sms_sent := sms_sent results;
                   sms_failed := sms_failed results + 1;
                   emails_sent := emails_sent results;
                   emails_failed := emails_failed results |})
    results h
  = (let n := successes (sms_ok self (twilio G) message)
                (sms_requests self message) h l in
     (Ok {| sms_sent := sms_sent results + n;
            sms_failed := sms_failed results + (Z.of_nat (List.length l) - n);
            emails_sent := emails_sent results;
            emails_failed := emails_failed results |},
      (h ++ flat_map (sms_requests self message) l)%list)).
Proof.
  revert results h. induction l as [|x l IH]; intros results h.
  - simpl. unfold ret. rewrite app_nil_r, !Z.add_0_r.
    now destruct results.
  - cbn [for_each]. unfold bind at 1. unfold bind at 1.
    rewrite send_sms_run.
    cbn [successes flat_map]. change (List.length (x :: l)) with (S (List.length l)).
    rewrite app_assoc.
    destruct (sms_ok self (twilio G) message h x); unfold ret at 1;
      rewrite IH; cbv zeta; cbn [sms_sent sms_failed emails_sent emails_failed];
      (apply (f_equal2 pair); [apply f_equal; f_equal; lia | reflexivity]).
Qed.

Lemma email_loop self G subject body html l results h :
  for_each l
    (fun email results =>
       success <- send_email self G email subject body html ;;
       if success : bool
       then ret {| sms_sent := sms_sent results;
                   sms_failed := sms_failed results;
                   emails_sent := emails_sent results + 1;
                   emails_failed := emails_failed results |}
       else ret {| sms_sent := sms_sent results;
                   sms_failed := sms_failed results;
                   emails_sent := emails_sent results;
                   emails_failed := emails_failed results + 1 |})
    results h
  = (let n := successes (email_ok self (smtp G) subject body html)
                (email_requests self subject body html) h l in
     (Ok {| sms_sent := sms_sent results;
            sms_failed := sms_failed results;
            emails_sent := emails_sent results + n;
            emails_failed := emails_failed results
                             + (Z.of_nat (List.length l) - n) |},
      (h ++ flat_map (email_requests self subject body html) l)%list)).
Proof.
  revert results h. induction l as [|x l IH]; intros results h.
  - simpl. unfold ret. rewrite app_nil_r, !Z.add_0_r.
    now destruct results.
  - cbn [for_each]. unfold bind at 1. unfold bind at 1.
    rewrite send_email_run.
    cbn [successes flat_map]. change (List.length (x :: l)) with (S (List.length l)).
    rewrite app_assoc.
    destruct (email_ok self (smtp G) subject body html h x); unfold ret at 1;
      rewrite IH; cbv zeta; cbn [sms_sent sms_failed emails_sent emails_failed];
      (apply (f_equal2 pair); [apply f_equal; f_equal; lia | reflexivity]).
Qed.

(** [if l:] guards a loop that does nothing on an empty list anyway. *)
Lemma guarded_loop {S} (l : option (list string))
  (body : string -> S -> IO S) (s : S) :
  match l with
  | Some ((_ :: _) as l) => for_each l body s
  | _ => ret s
  end = for_each (recipients l) body s.
Proof. destruct l as [[|x l]|]; reflexivity. Qed.

(** The whole dispatch: its outcome and the requests it leaves behind. *)
Lemma send_flood_alert_run self G T loc lvl score lat lon phone_numbers emails h :
  let message := sms_message T loc lvl score lat lon in
  let subject := email_subject T loc lvl score lat lon in
  let body := email_body T loc lvl score lat lon in
  let html := Some (email_html T loc lvl score lat lon) in
  let phones := recipients phone_numbers in
  let mails := recipients emails in
  let h1 := (h ++ flat_map (sms_requests self message) phones)%list in
  let n := successes (sms_ok self (twilio G) message)
             (sms_requests self message) h phones in
  let m := successes (email_ok self (smtp G) subject body html)
             (email_requests self subject body html) h1 mails in
  send_flood_alert self G T loc lvl score lat lon phone_numbers emails h
  = (Ok {| sms_sent := n;
           sms_failed := Z.of_nat (List.length phones) - n;
           emails_sent := m;
           emails_failed := Z.of_nat (List.length mails) - m |},
     (h1 ++ flat_map (email_requests self subject body html) mails)%list).
Proof.
  cbv zeta. unfold send_flood_alert.
  rewrite guarded_loop.
  unfold bind at 1. rewrite sms_loop. cbv zeta.
  unfold bind at 1. rewrite guarded_loop, email_loop. cbv zeta.
  unfold ret. cbn [sms_sent sms_failed emails_sent emails_failed].
  reflexivity.
Qed.

(** C4.  Dispatch always returns an outcome, whatever the providers answer
    or raise.  Each phone number and each address is attempted once and
    counted once, as sent or as failed.  The count of a channel is the
    number of its recipients whose own attempt succeeded, and the requests
    made are the same whichever attempts fail; so neither another
    recipient nor the other channel changes a count.  With no recipient at
    all the outcome is all zero and no request is made. *)
Theorem send_flood_alert_accounting (self : NotificationService)
  (G : Gateways) (T : Templates) (loc lvl : string) (score lat lon : float)
  (phone_numbers emails : option (list string)) (h : Log) :
  let message := sms_message T loc lvl score lat lon in
  let subject := email_subject T loc lvl score lat lon in
  let body := email_body T loc lvl score lat lon in
  let html := Some (email_html T loc lvl score lat lon) in
  let phones := recipients phone_numbers in
  let mails := recipients emails in
  let h1 := (h ++ flat_map (sms_requests self message) phones)%list in
  exists r h',
    send_flood_alert self G T loc lvl score lat lon phone_numbers emails h
    = (Ok r, h')
    /\ sms_sent r + sms_failed r = Z.of_nat (List.length phones)
    /\ emails_sent r + emails_failed r = Z.of_nat (List.length mails)
    /\ 0 <= sms_sent r /\ 0 <= sms_failed r
    /\ 0 <= emails_sent r /\ 0 <= emails_failed r
    /\ sms_sent r = successes (sms_ok self (twilio G) message)
                      (sms_requests self message) h phones
    /\ emails_sent r = successes (email_ok self (smtp G) subject body html)
                         (email_requests self subject body html) h1 mails
    /\ h' = (h1 ++ flat_map (email_requests self subject body html) mails)%list
    /\ (forall G' r' h'',
           send_flood_alert self G' T loc lvl score lat lon
             phone_numbers emails h = (Ok r', h'') ->
           h'' = h'
           /\ (twilio G' = twilio G ->
               sms_sent r' = sms_sent r /\ sms_failed r' = sms_failed r)
           /\ (smtp G' = smtp G ->
               emails_sent r' = emails_sent r
               /\ emails_failed r' = emails_failed r))
    /\ (phones = [] -> mails = [] ->
        r = {| sms_sent := 0; sms_failed := 0;
               emails_sent := 0; emails_failed := 0 |}
        /\ h' = h).
Proof.
  cbv zeta.
  pose proof (send_flood_alert_run self G T loc lvl score lat lon
                phone_numbers emails h) as E.
  cbv zeta in E. rewrite E.
  eexists; eexists. split; [reflexivity|].
  cbn [sms_sent sms_failed emails_sent emails_failed].
  match goal with
  | |- context [successes ?ok ?req h ?l] =>
      pose proof (successes_bounds ok req h l)
  end.
  match goal with
  | |- context [successes ?ok ?req (h ++ ?a)%list ?l] =>
      pose proof (successes_bounds ok req (h ++ a)%list l)
  end.
  repeat (split; [first [reflexivity | lia]|]).
  split.
  - intros G' r' h'' E'.
    pose proof (send_flood_alert_run self G' T loc lvl score lat lon
                  phone_numbers emails h) as F.
    cbv zeta in F. rewrite F in E'.
    injection E' as <- <-.
    cbn [sms_sent sms_failed emails_sent emails_failed].
    split; [reflexivity|].
    split; intros ->; split; reflexivity.
  - intros Hp Hm. rewrite Hp, Hm. simpl. rewrite !app_nil_r.
    split; reflexivity.
Qed.

(** One failing SMS provider and one succeeding e-mail provider, for two
    different recipients: one SMS failed, one e-mail sent. *)
Example send_flood_alert_one_channel_down :
  send_flood_alert notifier sms_down plain_templates "Quay" "Critical"
    100 0 0 (Some ["+15550100"]) (Some ["b@example.org"]) []
  = (Ok {| sms_sent := 0; sms_failed := 1;
           emails_sent := 1; emails_failed := 0 |},
     [TwilioPost "+10000000000" "+15550100" "Critical risk at Quay";
      SmtpSend "alerts@example.org" "b@example.org" "Critical risk at Quay"
        "Critical risk at Quay" (Some "Critical risk at Quay")]).
Proof. reflexivity. Qed.

End DispatchFacts.

(** ** The event-creation handler *)

Module PipelineFacts.
Import Py Schemas Models Effects Effects.Notations Spec Examples.
Import FloodRisk.





(** A Critical event near one subscriber is matched and dispatched; a Low
    one leaves no trace. *)
Example critical_event_is_dispatched :
  snd (Floods.create_flood_event (runtime 0) offline risk_service notifier
         sms_down plain_templates downpour one_subscriber [])
  = [Entered Matching; Entered Dispatch;
     SmtpSend "alerts@example.org" "a@example.org" "Critical risk at Quay"
       "Critical risk at Quay" (Some "Critical risk at Quay")].
Proof. reflexivity. Qed.

Example low_event_is_silent :
  snd (Floods.create_flood_event (runtime 0) offline risk_service notifier
         sms_down plain_templates drizzle one_subscriber [])
  = [].
Proof. reflexivity. Qed.

End PipelineFacts.

(** ** More facts on binary64 numbers *)

Module FloatFacts.

Lemma SFleb_trans x y z :
  SFleb x y = true -> SFleb y z = true -> SFleb x z = true.
Proof.
  unfold SFleb.
  destruct x as [sx|sx| |sx mx ex], y as [sy|sy| |sy my ey],
           z as [sz|sz| |sz mz ez]; simpl;
    try discriminate; try reflexivity;
    try (destruct sx; simpl; try discriminate; try reflexivity);
    try (destruct sy; simpl; try discriminate; try reflexivity);
    try (destruct sz; simpl; try discriminate; try reflexivity).
  all: change (Pos.compare_cont Eq) with Pos.compare;
    destruct (Z.compare_spec ex ey), (Z.compare_spec ey ez),
      (Z.compare_spec ex ez); try lia; simpl;
      try discriminate; try reflexivity;
    destruct (Pos.compare_spec mx my), (Pos.compare_spec my mz),
      (Pos.compare_spec mx mz); try lia; simpl;
      try discriminate; try reflexivity.
Qed.

Lemma leb_trans (x y z : float) :
  (x <=? y)%float = true -> (y <=? z)%float = true -> (x <=? z)%float = true.
Proof. rewrite !leb_spec. apply SFleb_trans. Qed.

(** A number equal to 0.0 is a zero of either sign. *)
Lemma eqb_zero_decode (x : float) :
  (x =? 0)%float = true -> exists s, Prim2SF x = S754_zero s.
Proof.
  rewrite eqb_spec. change (Prim2SF 0) with (S754_zero false).
  unfold SFeqb.
  destruct (Prim2SF x) as [s|s| |s m e]; simpl; try discriminate; eauto;
    destruct s; discriminate.
Qed.

(** A number between two finite bounds is a zero or finite. *)
Lemma bounded_decode (lo hi x : float) :
  (lo <=? x)%float = true -> (x <=? hi)%float = true ->
  (exists s m e, Prim2SF lo = S754_finite s m e) ->
  (exists s m e, Prim2SF hi = S754_finite s m e) ->
  (exists s, Prim2SF x = S754_zero s)
  \/ (exists s m e, Prim2SF x = S754_finite s m e).
Proof.
  rewrite !leb_spec. intros H1 H2 (s1 & m1 & e1 & E1) (s2 & m2 & e2 & E2).
  rewrite E1 in H1. rewrite E2 in H2. unfold SFleb in *.
  destruct (Prim2SF x) as [s|s| |s m e]; simpl in *; eauto 6;
    try discriminate.
  destruct s, s1, s2; discriminate.
Qed.

(** Such a number minus itself is 0.0. *)
Lemma sub_self (x : float) :
  (exists s, Prim2SF x = S754_zero s)
  \/ (exists s m e, Prim2SF x = S754_finite s m e) ->
  (x - x)%float = 0%float.
Proof.
  intros H. apply Prim2SF_inj. rewrite sub_spec.
  change (Prim2SF 0) with (S754_zero false).
  destruct H as [[s ->]|(s & m & e & ->)].
  - destruct s; reflexivity.
  - unfold SF64sub, SFsub. rewrite Z.min_id, Z.sub_diag. reflexivity.
Qed.

(** 111 times the absolute value of a zero is 0.0. *)
Lemma equator_divisor (x : float) :
  (x =? 0)%float = true -> (111 * abs x =? 0)%float = true.
Proof.
  intros H. destruct (eqb_zero_decode x H) as [s Hs].
  rewrite eqb_spec, mul_spec, abs_spec, Hs.
  replace (Prim2SF 111) with (S754_finite false 7810930603720704 (-46))
    by (vm_compute; reflexivity).
  reflexivity.
Qed.

End FloatFacts.

(** ** Lookups, deletions and pagination in [app/crud.py] *)

Module StoreFacts.
Import Py Schemas Models Http FloatFacts Vocabulary Examples.

Lemma find_filter_same {A} (key : A -> Z) (k : Z) (l : list A) :
  find (fun x => (key x =? k)%Z) (filter (fun x => negb (key x =? k)%Z) l)
  = None.
Proof.
  induction l as [|x l IH]; simpl; [reflexivity|].
  destruct (key x =? k)%Z eqn:E; simpl; [exact IH|].
  now rewrite E.
Qed.

Lemma find_filter_other {A} (key : A -> Z) (k o : Z) (l : list A) :
  o <> k ->
  find (fun x => (key x =? o)%Z) (filter (fun x => negb (key x =? k)%Z) l)
  = find (fun x => (key x =? o)%Z) l.
Proof.
  intros H. induction l as [|x l IH]; simpl; [reflexivity|].
  destruct (key x =? k)%Z eqn:E; simpl.
  - apply Z.eqb_eq in E.
    destruct (Z.eqb_spec (key x) o); [congruence|exact IH].
  - destruct (key x =? o)%Z; [reflexivity|exact IH].
Qed.

Lemma find_key {A} (key : A -> Z) (k : Z) (l : list A) (x : A) :
  find (fun x => (key x =? k)%Z) l = Some x -> key x = k /\ In x l.
Proof.
  intros H. apply find_some in H. destruct H as [H E].
  now apply Z.eqb_eq in E.
Qed.




(** X1.  A search centred on the equator fails: with a latitude of 0.0 (or
    -0.0) the longitude window divides by zero, whatever the radius, the
    longitude and the stored events; the query parameters pass validation
    all the same. *)
Theorem get_flood_events_by_location_equator
  (newest_first : list FloodEvent -> list FloodEvent) (db : Session)
  (latitude longitude radius_km : float) :
  (latitude =? 0)%float = true ->
  Crud.get_flood_events_by_location newest_first db latitude longitude radius_km
  = Raised
  /\ Floods.get_nearby_flood_events newest_first db latitude longitude radius_km
     = Raised.
Proof.
  intros H.
  assert (E : Crud.get_flood_events_by_location newest_first db latitude
                longitude radius_km = Raised).
  { unfold Crud.get_flood_events_by_location, truediv.
    now rewrite (equator_divisor latitude H). }
  split; [exact E|exact E].
Qed.

Lemma get_flood_events_by_location_equator_witness :
  Floods.nearby_query_valid 0 20 5 = true
  /\ Crud.get_flood_events_by_location stored_order low_db 0 20 5 = Raised
  /\ Floods.get_nearby_flood_events stored_order low_db 0 20 5 = Raised.
Proof.
  split; [reflexivity|].
  apply (get_flood_events_by_location_equator stored_order low_db 0 20 5).
  reflexivity.
Defined.

(** X2.  Deleting a flood event: an unknown id gives 404 and leaves the
    store as it was; a known id gives the success message, after which
    that id gives 404 on lookup, every other id is looked up as before,
    and the subscriptions are untouched. *)
Theorem delete_flood_event_then_lookup (db : Session) (flood_id : Z) :
  let r := fst (Floods.delete_flood_event db flood_id) in
  let db' := snd (Floods.delete_flood_event db flood_id) in
  (Crud.get_flood_event db flood_id = None ->
   r = HTTPException 404 "Flood event not found" /\ db' = db)
  /\ (forall ev, Crud.get_flood_event db flood_id = Some ev ->
      r = Respond {| mr_message := "Flood event deleted successfully";
                     mr_detail := Some ("Deleted flood event with ID "
                                        ++ str_int flood_id) |}
      /\ Floods.get_flood_event db' flood_id
         = HTTPException 404 "Flood event not found"
      /\ (forall other, other <> flood_id ->
          Floods.get_flood_event db' other = Floods.get_flood_event db other)
      /\ alert_subscriptions db' = alert_subscriptions db).
Proof.
  cbv zeta. unfold Floods.delete_flood_event, Crud.delete_flood_event.
  split.
  - intros ->. simpl. split; reflexivity.
  - intros ev E. rewrite E. simpl.
    destruct (find_key ev_id flood_id _ ev E) as [K _].
    split; [reflexivity|].
    unfold Floods.get_flood_event, Crud.get_flood_event. simpl. rewrite K.
    split; [now rewrite find_filter_same|].
    split; [|reflexivity].
    intros other Ho. now rewrite find_filter_other.
Qed.


End StoreFacts.

(** ** Subscriptions: update, deletion and their effect on matching *)

Module SubscriptionFacts.
Import Py Schemas Models Http Spec Vocabulary Examples.


Lemma apply_update_id u sub :
  sub_id (Crud.apply_update u sub) = sub_id sub.
Proof. reflexivity. Qed.



(** X6.  Once an update has set [is_active] to false for an id, the
    matcher returns no subscription with that id, wherever the event is
    and whatever its severity. *)
Theorem deactivated_subscription_is_never_matched (R : Runtime) (db : Session)
  (subscription_id : Z) (u : AlertSubscriptionUpdate)
  (lat lon : float) (event_severity : string) (sub : AlertSubscription) :
  asu_is_active u = Some false ->
  In sub (Crud.get_subscriptions_near_location R
            (snd (Crud.update_subscription db subscription_id u))
            lat lon event_severity) ->
  sub_id sub <> subscription_id.
Proof.
  intros Hu Hin.
  rewrite MatcherFacts.get_subscriptions_near_location_rows in Hin.
  apply filter_In in Hin. destruct Hin as [Hin Ht].
  unfold row_test in Ht. apply andb_true_iff in Ht. destruct Ht as [Ha _].
  apply Z.eqb_eq in Ha.
  unfold Crud.update_subscription in Hin.
  destruct (Crud.get_subscription db subscription_id) as [old|] eqn:E.
  - destruct (StoreFacts.find_key sub_id subscription_id _ old E) as [K _].
    simpl in Hin. apply in_map_iff in Hin. destruct Hin as (x & Hx & _).
    destruct (Z.eqb_spec (sub_id x) (sub_id old)) as [Ex|Ex].
    + subst sub. simpl in Ha. rewrite Hu in Ha. discriminate Ha.
    + subst sub. congruence.
  - simpl in Hin. intros Ek.
    pose proof (find_none _ _ E sub Hin) as F. simpl in F.
    apply Z.eqb_neq in F. contradiction.
Qed.

Lemma deactivated_subscription_is_never_matched_witness :
  In lowercase_high
    (Crud.get_subscriptions_near_location (runtime 0) one_subscriber
       0 0 "Critical")
  /\ Crud.get_subscriptions_near_location (runtime 0)
       (snd (Crud.update_subscription one_subscriber 1 switch_off))
       0 0 "Critical" = []
  /\ (forall sub,
         In sub (Crud.get_subscriptions_near_location (runtime 0)
                   (snd (Crud.update_subscription one_subscriber 1 switch_off))
                   0 0 "Critical") ->
         sub_id sub <> 1).
Proof.
  split; [simpl; auto|]. split; [reflexivity|].
  intros sub.
  apply (deactivated_subscription_is_never_matched (runtime 0) one_subscriber
           1 switch_off 0 0 "Critical" sub eq_refl).
Defined.

(** X7.  Unsubscribing: an unknown id gives 404 and leaves the store as it
    was; a known id gives the success message, after which a lookup of
    the id gives 404, the matcher returns no subscription with that id,
    a subscription with another id is matched exactly when it was before,
    and the flood events are untouched. *)
Theorem delete_subscription_then_lookup (R : Runtime) (db : Session)
  (subscription_id : Z) :
  let r := fst (Notifications.delete_subscription db subscription_id) in
  let db' := snd (Notifications.delete_subscription db subscription_id) in
  (Crud.get_subscription db subscription_id = None ->
   r = HTTPException 404 "Subscription not found" /\ db' = db)
  /\ (forall old, Crud.get_subscription db subscription_id = Some old ->
      r = Respond {| mr_message := "Successfully unsubscribed from alerts";
                     mr_detail := Some ("Deleted subscription ID "
                                        ++ str_int subscription_id) |}
      /\ Notifications.get_subscription db' subscription_id
         = HTTPException 404 "Subscription not found"
      /\ (forall lat lon sev sub,
             In sub (Crud.get_subscriptions_near_location R db' lat lon sev) <->
             In sub (Crud.get_subscriptions_near_location R db lat lon sev)
             /\ sub_id sub <> subscription_id)
      /\ flood_events db' = flood_events db).
Proof.
  cbv zeta.
  unfold Notifications.delete_subscription, Crud.delete_subscription.
  split.
  - intros ->. simpl. split; reflexivity.
  - intros old E. rewrite E. simpl.
    destruct (StoreFacts.find_key sub_id subscription_id _ old E) as [K _].
    rewrite K.
    split; [reflexivity|].
    split.
    { unfold Notifications.get_subscription, Crud.get_subscription. simpl.
      now rewrite StoreFacts.find_filter_same. }
    split; [|reflexivity].
    intros lat lon sev sub.
    rewrite !MatcherFacts.get_subscriptions_near_location_rows. simpl.
    rewrite !filter_In, negb_true_iff, Z.eqb_neq. tauto.
Qed.

(** X11.  The matcher grows with the severity of the event: a subscription
    returned for an event is returned for an event at the same place
    whose severity ranks at least as high. *)
Theorem matcher_grows_with_severity (R : Runtime) (db : Session)
  (lat lon : float) (s1 s2 : string) (sub : AlertSubscription) :
  severity_rank s1 <= severity_rank s2 ->
  In sub (Crud.get_subscriptions_near_location R db lat lon s1) ->
  In sub (Crud.get_subscriptions_near_location R db lat lon s2).
Proof.
  intros Hr.
  rewrite !MatcherFacts.get_subscriptions_near_location_rows, !filter_In.
  unfold row_test. rewrite !MatcherFacts.severity_order_rank.
  rewrite !andb_true_iff, !Z.geb_leb, !Z.leb_le.
  intros (Hin & Ha & Hd & Hs). repeat split; try assumption. lia.
Qed.

Lemma matcher_grows_with_severity_witness :
  severity_rank "High" <= severity_rank "Critical"
  /\ In lowercase_high
       (Crud.get_subscriptions_near_location (runtime 0) one_subscriber
          0 0 "Critical").
Proof.
  split; [vm_compute; discriminate|].
  apply (matcher_grows_with_severity (runtime 0) one_subscriber 0 0
           "High" "Critical" lowercase_high).
  - vm_compute. discriminate.
  - simpl. auto.
Defined.

End SubscriptionFacts.

(** ** The handlers of [app/routers/floods.py] *)

Module HandlerFacts.
Import Py Schemas Models Effects Effects.Notations Http Spec Vocabulary.
Import Examples FloatOrder FloatFacts.


Lemma find_app {A} (f : A -> bool) (l1 l2 : list A) :
  find f (l1 ++ l2)
  = match find f l1 with
    | Some x => Some x
    | None => find f l2
    end.
Proof.
  induction l1 as [|x l1 IH]; simpl; [reflexivity|].
  destruct (f x); [reflexivity|exact IH].
Qed.



(** The total, read as a float, lies in [0, 100], and the severity is a
    member of [SeverityLevel]. *)
Lemma scored_fields_validate (rainfall_mm elevation_m : float) :
  let sc := FloodRisk.calculate_risk_score rainfall_mm elevation_m in
  ((0 <=? float_of_int (fst sc)) && (float_of_int (fst sc) <=? 100))%float
  = true
  /\ is_SeverityLevel (snd sc) = true.
Proof.
  cbv zeta. unfold FloodRisk.calculate_risk_score.
  unfold FloodRisk.rainfall_score, FloodRisk.elevation_score.
  destruct (rainfall_mm <? 5)%float, (rainfall_mm <? 15)%float,
    (rainfall_mm <? 30)%float, (rainfall_mm <? 50)%float,
    (elevation_m <? 10)%float, (elevation_m <? 50)%float,
    (elevation_m <? 100)%float, (elevation_m <? 200)%float;
    split; vm_compute; reflexivity.
Qed.

(** X13.  The response of the calculate-risk endpoint always satisfies its
    own schema: the score it reports lies in [0, 100] and the severity is
    one of Low, Medium, High, Critical, whatever the providers answer. *)
Theorem calculate_flood_risk_response_validates (R : Runtime)
  (P : FloodRisk.Providers) (frs : FloodRisk.FloodRiskService)
  (request : RiskCalculationRequest) :
  Floods.RiskCalculationResponse_valid
    (Floods.calculate_flood_risk R P frs request) = true
  /\ Floods.rc_rainfall_mm (Floods.calculate_flood_risk R P frs request)
     = FloodRisk.get_rainfall_data P (rcr_latitude request)
         (rcr_longitude request)
  /\ Floods.rc_elevation_m (Floods.calculate_flood_risk R P frs request)
     = FloodRisk.get_elevation_data R P frs (rcr_latitude request)
         (rcr_longitude request).
Proof.
  split; [|split; reflexivity].
  unfold Floods.RiskCalculationResponse_valid, Floods.calculate_flood_risk.
  unfold FloodRisk.calculate_flood_risk. cbn [Floods.rc_risk_score Floods.rc_severity].
  match goal with
  | |- context [FloodRisk.calculate_risk_score ?r ?e] =>
      pose proof (scored_fields_validate r e) as [S1 S2]
  end.
  cbv zeta in S1, S2.
  unfold FloodRisk.calculate_risk_score in *. cbn [fst snd] in *.
  cbn [FloodRisk.risk_score FloodRisk.severity].
  now rewrite S1, S2.
Qed.



End HandlerFacts.

(** ** The handlers of [app/routers/notifications.py] *)

Module NotificationsFacts.
Import Py Schemas Models Effects Effects.Notations Http Spec Vocabulary.
Import Examples FloatOrder FloatFacts.

Lemma email_requests_no_sms self subject body html email :
  existsb is_sms (email_requests self subject body html email) = false.
Proof. unfold email_requests. now destruct (forallb truthy _). Qed.

(** What subscribing does, step by step. *)
Lemma subscribe_to_alerts_run ns G C req db h :
  Notifications.subscribe_to_alerts ns G C req db h
  = if negb (truthy (asc_email req)) && negb (truthy (asc_phone req))
    then (Ok (HTTPException 400
                "At least one contact method (email or phone) is required",
              db), h)
    else (Ok (Respond (fst (Crud.create_subscription db req)),
              snd (Crud.create_subscription db req)),
          (h ++ match asc_email req with
                | Some email =>
                    if truthy (asc_email req)
                    then email_requests ns (Notifications.confirm_subject C)
                           (Notifications.confirm_body C req)
                           (Some (Notifications.confirm_html C req)) email
                    else []
                | None => []
                end)%list).
Proof.
  unfold Notifications.subscribe_to_alerts.
  destruct (negb (truthy (asc_email req)) && negb (truthy (asc_phone req)));
    [reflexivity|].
  unfold Crud.create_subscription. cbn [fst snd].
  unfold bind at 1.
  destruct (asc_email req) as [email|]; cbn [truthy].
  - destruct (negb (email =? "")).
    + unfold bind at 1. rewrite DispatchFacts.send_email_run.
      reflexivity.
    + unfold ret. now rewrite app_nil_r.
  - unfold ret. now rewrite app_nil_r.
Qed.

(** X8.  Subscribing never raises and never sends an SMS.  Without an
    e-mail address and without a phone number it answers 400, stores
    nothing and sends nothing.  Otherwise it stores one new active row
    holding the request's fields and returns it, whether or not the
    confirmation e-mail could be sent; that e-mail is attempted exactly
    when an address was given. *)
Theorem subscribe_to_alerts_outcome
  (ns : Notification.NotificationService) (G : Notification.Gateways)
  (C : Notifications.ConfirmationTexts) (req : AlertSubscriptionCreate)
  (db : Session) (h : Log) :
  let no_contact :=
    negb (truthy (asc_email req)) && negb (truthy (asc_phone req)) in
  exists r db' new,
    Notifications.subscribe_to_alerts ns G C req db h
    = (Ok (r, db'), (h ++ new)%list)
    /\ existsb is_sms new = false
    /\ (no_contact = true ->
        r = HTTPException 400
              "At least one contact method (email or phone) is required"
        /\ db' = db /\ new = [])
    /\ (no_contact = false ->
        exists row,
          r = Respond row
          /\ alert_subscriptions db' = (alert_subscriptions db ++ [row])%list
          /\ flood_events db' = flood_events db
          /\ sub_is_active row = 1
          /\ sub_email row = asc_email req /\ sub_phone row = asc_phone req
          /\ sub_latitude row = asc_latitude req
          /\ sub_longitude row = asc_longitude req
          /\ sub_radius_km row = asc_radius_km req
          /\ sub_min_severity row = asc_min_severity req
          /\ (truthy (asc_email req) = false -> new = [])
          /\ (forall email, asc_email req = Some email ->
              truthy (asc_email req) = true ->
              new = email_requests ns (Notifications.confirm_subject C)
                      (Notifications.confirm_body C req)
                      (Some (Notifications.confirm_html C req)) email)).
Proof.
  cbv zeta. rewrite subscribe_to_alerts_run.
  destruct (negb (truthy (asc_email req)) && negb (truthy (asc_phone req))).
  - exists (HTTPException 400
              "At least one contact method (email or phone) is required"),
      db, [].
    rewrite app_nil_r. split; [reflexivity|]. split; [reflexivity|].
    split; [auto|discriminate].
  - eexists; eexists; eexists. split; [reflexivity|].
    split.
    { destruct (asc_email req) as [email|]; [|reflexivity].
      destruct (truthy (Some email)); [|reflexivity].
      apply email_requests_no_sms. }
    split; [discriminate|]. intros _.
    eexists. split; [reflexivity|].
    repeat (split; [reflexivity|]).
    split.
    + intros Ht. destruct (asc_email req); [now rewrite Ht|reflexivity].
    + intros email -> Ht. now rewrite Ht.
Qed.

Lemma valid_latitude_decode (x : float) :
  ((-90 <=? x) && (x <=? 90))%float = true ->
  (exists s, Prim2SF x = S754_zero s)
  \/ (exists s m e, Prim2SF x = S754_finite s m e).
Proof.
  intros H. apply andb_true_iff in H. destruct H as [H1 H2].
  apply (bounded_decode (-90) 90 x H1 H2);
    do 3 eexists; vm_compute; reflexivity.
Qed.

Lemma valid_longitude_decode (x : float) :
  ((-180 <=? x) && (x <=? 180))%float = true ->
  (exists s, Prim2SF x = S754_zero s)
  \/ (exists s m e, Prim2SF x = S754_finite s m e).
Proof.
  intros H. apply andb_true_iff in H. destruct H as [H1 H2].
  apply (bounded_decode (-180) 180 x H1 H2);
    do 3 eexists; vm_compute; reflexivity.
Qed.

(** A row with validated coordinates and radius lies within its own
    radius of an event at its own coordinates. *)
Lemma own_location_within_radius R (sub : AlertSubscription) :
  power_of_zero R ->
  ((-90 <=? sub_latitude sub) && (sub_latitude sub <=? 90))%float = true ->
  ((-180 <=? sub_longitude sub) && (sub_longitude sub <=? 180))%float = true ->
  (0x1.999999999999ap-4 <=? sub_radius_km sub)%float = true ->
  (Crud.approx_dist_km R sub (sub_latitude sub) (sub_longitude sub)
   <=? sub_radius_km sub)%float = true.
Proof.
  intros [P2 P05] Vlat Vlon Vr. unfold Crud.approx_dist_km. cbv zeta.
  rewrite (sub_self _ (valid_latitude_decode _ Vlat)).
  rewrite (sub_self _ (valid_longitude_decode _ Vlon)).
  replace (abs 0) with 0%float by reflexivity.
  rewrite P2.
  replace (0 + 0)%float with 0%float by reflexivity.
  rewrite P05.
  replace (0 * 111)%float with 0%float by reflexivity.
  apply (leb_trans 0 0x1.999999999999ap-4 (sub_radius_km sub));
    [reflexivity|exact Vr].
Qed.

Lemma power_of_zero_runtime (salt : Z) : power_of_zero (runtime salt).
Proof. split; reflexivity. Qed.

(** X9.  A subscriber is alerted at home: after a valid request with a
    contact has been stored, an event at the subscription's own
    coordinates whose severity ranks at least the requested minimum is
    matched to the new subscription. *)
Theorem new_subscriber_is_matched_at_home (R : Runtime)
  (ns : Notification.NotificationService) (G : Notification.Gateways)
  (C : Notifications.ConfirmationTexts) (req : AlertSubscriptionCreate)
  (db : Session) (h : Log) (event_severity : string) :
  power_of_zero R ->
  AlertSubscriptionCreate_valid req = true ->
  truthy (asc_email req) || truthy (asc_phone req) = true ->
  severity_rank (asc_min_severity req) <= severity_rank event_severity ->
  exists row db' h',
    Notifications.subscribe_to_alerts ns G C req db h
    = (Ok (Respond row, db'), h')
    /\ In row (Crud.get_subscriptions_near_location R db'
                 (asc_latitude req) (asc_longitude req) event_severity).
Proof.
  intros HP V Hc Hs. rewrite subscribe_to_alerts_run.
  replace (negb (truthy (asc_email req)) && negb (truthy (asc_phone req)))
    with false
    by (destruct (truthy (asc_email req)), (truthy (asc_phone req));
        simpl in *; congruence).
  eexists; eexists; eexists. split; [reflexivity|].
  rewrite MatcherFacts.get_subscriptions_near_location_rows, filter_In.
  unfold Crud.create_subscription. cbn [fst snd alert_subscriptions].
  split; [apply in_or_app; right; simpl; auto|].
  unfold AlertSubscriptionCreate_valid in V.
  apply andb_true_iff in V. destruct V as [V Vr].
  apply andb_true_iff in V. destruct V as [Vlat Vlon].
  apply andb_true_iff in Vr. destruct Vr as [Vr _].
  unfold row_test. cbn [sub_is_active sub_radius_km sub_min_severity].
  match goal with
  | |- context [Crud.approx_dist_km R ?row _ _] =>
      pose proof (own_location_within_radius R row HP Vlat Vlon Vr) as D
  end.
  cbn [sub_latitude sub_longitude sub_radius_km] in D. rewrite D.
  rewrite !MatcherFacts.severity_order_rank, Z.geb_leb.
  cbn [Z.eqb Pos.eqb andb]. now apply Z.leb_le.
Qed.

Lemma new_subscriber_is_matched_at_home_witness :
  AlertSubscriptionCreate_valid by_email = true
  /\ exists row db' h',
       Notifications.subscribe_to_alerts notifier sms_down
         {| Notifications.confirm_subject := "Subscription confirmed";
            Notifications.confirm_body := fun _ => "You are subscribed.";
            Notifications.confirm_html := fun _ => "You are subscribed." |}
         by_email one_subscriber []
       = (Ok (Respond row, db'), h')
       /\ In row (Crud.get_subscriptions_near_location (runtime 0) db'
                    (asc_latitude by_email) (asc_longitude by_email) "High").
Proof.
  split; [reflexivity|].
  apply (new_subscriber_is_matched_at_home (runtime 0)).
  - apply power_of_zero_runtime.
  - reflexivity.
  - reflexivity.
  - vm_compute. discriminate.
Defined.

Lemma recipients_or_None (l : list string) :
  recipients (Floods.or_None l) = l.
Proof. now destruct l. Qed.


(** A Low event is dispatched on request, though creating it sent
    nothing. *)
Example low_event_is_notified_on_request :
  Notifications.send_alert_notifications (runtime 0) notifier sms_down
    plain_templates low_db 1 []
  = (Ok (Respond {| nr_sms_sent := 0; nr_sms_failed := 1;
                    nr_emails_sent := 1; nr_emails_failed := 0;
                    nr_message := "Notified 1 subscriptions" |}),
     [TwilioPost "+10000000000" "+15550111" "Low risk at Ridge";
      SmtpSend "alerts@example.org" "c@example.org" "Low risk at Ridge"
        "Low risk at Ridge" (Some "Low risk at Ridge")]).
Proof. reflexivity. Qed.

End NotificationsFacts.

(** ** More on the resolver and the explanatory factors *)

Module FactorFacts.
Import Py Schemas FloodRisk Spec Vocabulary Examples FloatOrder FloatFacts.

Lemma SFcompare_numbers x c :
  SFeqb x x = true -> SFeqb c c = true -> exists o, SFcompare c x = Some o.
Proof.
  unfold SFeqb. destruct x, c; simpl; try discriminate; eauto.
Qed.

(** Among numbers, [c < x] failing means [x <= c]. *)
Lemma not_gtb_leb (x c : float) :
  (x =? x)%float = true -> (c =? c)%float = true ->
  (c <? x)%float = false -> (x <=? c)%float = true.
Proof.
  rewrite !eqb_spec, ltb_spec, leb_spec. intros Hx Hc.
  destruct (SFcompare_numbers _ _ Hx Hc) as [o Ho].
  unfold SFleb, SFltb.
  rewrite (SFcompare_antisym (Prim2SF c) (Prim2SF x)), Ho.
  destruct o; simpl; congruence.
Qed.

Lemma ltb_trans (x y z : float) :
  (x <? y)%float = true -> (y <? z)%float = true -> (x <? z)%float = true.
Proof. intros H. apply leb_ltb_trans. now apply ltb_leb. Qed.

Lemma ltb_asym (x y : float) :
  (x <? y)%float = true -> (y <? x)%float = false.
Proof. intros H. now apply leb_not_ltb, ltb_leb. Qed.

(** X12.  The explanatory factors agree with the points.  The elevation
    factor is High risk exactly on the bins worth 40 or 30 points, Medium
    risk on the bin worth 20 and Low risk on the bins worth 10 or 5.  The
    explanation opens with Risk is elevated exactly when the severity is
    High or Critical.  For a rainfall that is a number, the rainfall
    factor High goes with at least 50 points, Medium with 35 to 50 and
    Low with at most 35. *)
Theorem factors_agree_with_points (R : Runtime) (P : Providers)
  (self : FloodRiskService) (lat lon : float) (ro eo : option float) :
  let rd := calculate_flood_risk R P self lat lon ro eo in
  let rp := rainfall_score (rainfall_mm rd) in
  let ep := elevation_score (elevation_m rd) in
  ((elevation_contribution (factors rd) = "High risk" /\ 30 <= ep)
   \/ (elevation_contribution (factors rd) = "Medium risk" /\ ep = 20)
   \/ (elevation_contribution (factors rd) = "Low risk" /\ ep <= 10))
  /\ ((exists rest, explanation (factors rd) = "Risk is elevated" ++ rest)
      <-> severity rd = "High" \/ severity rd = "Critical")
  /\ ((rainfall_mm rd =? rainfall_mm rd)%float = true ->
      (rainfall_contribution (factors rd) = "High" /\ 50 <= rp)
      \/ (rainfall_contribution (factors rd) = "Medium" /\ 35 <= rp <= 50)
      \/ (rainfall_contribution (factors rd) = "Low" /\ rp <= 35)).
Proof.
  cbv zeta. unfold calculate_flood_risk.
  set (r := match ro with Some r => r | None => _ end).
  set (e := match eo with Some e => e | None => _ end).
  cbn [calculate_risk_score rainfall_mm elevation_m factors severity
       risk_score elevation_contribution rainfall_contribution explanation].
  split; [|split].
  - unfold elevation_score.
    destruct (e <? 50)%float eqn:E50.
    + left. split; [reflexivity|]. destruct (e <? 10)%float; lia.
    + destruct (e <? 100)%float eqn:E100.
      * right; left. split; [reflexivity|].
        destruct (e <? 10)%float eqn:E10; [|reflexivity].
        pose proof (ltb_trans e 10 50 E10 eq_refl). congruence.
      * right; right. split; [reflexivity|].
        destruct (e <? 10)%float eqn:E10.
        { pose proof (ltb_trans e 10 50 E10 eq_refl). congruence. }
        destruct (e <? 200)%float; lia.
  - set (t := rainfall_score r + elevation_score e).
    unfold severity_of.
    destruct (Z.ltb_spec 50 t) as [H50|H50].
    + split; [intros _|intros _; eexists; reflexivity].
      destruct (Z.leb_spec t 25); [lia|].
      destruct (Z.leb_spec t 50); [lia|].
      destruct (Z.leb_spec t 75); [now left|now right].
    + split.
      * intros [rest Hrest]. exfalso.
        destruct (25 <? t)%Z; simpl in Hrest; discriminate Hrest.
      * destruct (Z.leb_spec t 25); [intros [K|K]; discriminate K|].
        destruct (Z.leb_spec t 50); [intros [K|K]; discriminate K|lia].
  - intros Hn. unfold rainfall_score.
    destruct (30 <? r)%float eqn:G30.
    + left. split; [reflexivity|].
      rewrite (ltb_asym 5 r (ltb_trans 5 30 r eq_refl G30)).
      rewrite (ltb_asym 15 r (ltb_trans 15 30 r eq_refl G30)).
      rewrite (ltb_asym 30 r G30).
      destruct (r <? 50)%float; lia.
    + pose proof (not_gtb_leb r 30 Hn eq_refl G30) as L30.
      destruct (15 <? r)%float eqn:G15.
      * right; left. split; [reflexivity|].
        rewrite (ltb_asym 5 r (ltb_trans 5 15 r eq_refl G15)).
        rewrite (ltb_asym 15 r G15).
        rewrite (leb_ltb_trans r 30 50 L30 eq_refl).
        destruct (r <? 30)%float; lia.
      * right; right. split; [reflexivity|].
        pose proof (not_gtb_leb r 15 Hn eq_refl G15) as L15.
        rewrite (leb_ltb_trans r 15 30 L15 eq_refl).
        destruct (r <? 5)%float, (r <? 15)%float; lia.
Qed.

(** X15.  The elevation resolver returns a negative elevation only when an
    elevation key is configured and the provider itself answered OK with
    that elevation first in its results; every fallback is the mock
    elevation, which is never negative. *)
Theorem negative_elevation_comes_from_provider (R : Runtime) (P : Providers)
  (self : FloodRiskService) (lat lon : float) :
  (get_elevation_data R P self lat lon <? 0)%float = true ->
  exists key data rest,
    google_elevation_api_key self = Some key
    /\ key <> "" /\ key <> "your_google_elevation_api_key_here"
    /\ get_elevation P lat lon = Returned data
    /\ el_status data = Some "OK"
    /\ el_results data
       = Some (get_elevation_data R P self lat lon :: rest).
Proof.
  unfold get_elevation_data.
  assert (M : (_mock_elevation R lat lon <? 0)%float = true -> False).
  { intros H. pose proof (max0_nonneg
                            (abs lat * 10
                             + float_of_int
                                 (py_hash R (float_str R lat ++ ","
                                             ++ float_str R lon) mod 100 - 50))%float) as N.
    apply leb_not_ltb in N. unfold _mock_elevation in H. congruence. }
  destruct (google_elevation_api_key self) as [key|]; cbn [truthy negb orb];
    [|intros H; now elim M].
  destruct (String.eqb_spec key "") as [->|Hk]; cbn [negb orb];
    [intros H; now elim M|].
  destruct (String.eqb_spec key "your_google_elevation_api_key_here")
    as [->|Hp]; [intros H; now elim M|].
  destruct (get_elevation P lat lon) as [|data]; [intros H; now elim M|].
  destruct (el_status data) as [st|] eqn:Es; [|intros H; now elim M].
  destruct (el_results data) as [[|x rest]|] eqn:Er;
    try (intros H; now elim M).
  destruct (String.eqb_spec st "OK") as [->|_]; [|intros H; now elim M].
  intros _. exists key, data, rest. repeat split; auto.
Qed.

Lemma negative_elevation_comes_from_provider_witness :
  get_elevation_data (runtime 0) dead_sea keyed_service 0 0 = (-86)%float
  /\ exists key data rest,
       google_elevation_api_key keyed_service = Some key
       /\ key <> "" /\ key <> "your_google_elevation_api_key_here"
       /\ get_elevation dead_sea 0 0 = Returned data
       /\ el_status data = Some "OK"
       /\ el_results data
          = Some (get_elevation_data (runtime 0) dead_sea keyed_service 0 0
                  :: rest).
Proof.
  split; [reflexivity|].
  apply (negative_elevation_comes_from_provider (runtime 0) dead_sea
           keyed_service 0 0).
  reflexivity.
Defined.

(** X16.  Only the first four forecast intervals count: two forecasts
    that agree on four or more leading intervals resolve to the same
    rainfall, however the later intervals differ. *)
Theorem forecast_window_is_four_intervals (P P' : Providers)
  (lat lon : float) (l extra extra' : list ForecastEntry) :
  (4 <= List.length l)%nat ->
  get_forecast P lat lon = Returned {| fc_list := Some (l ++ extra)%list |} ->
  get_forecast P' lat lon = Returned {| fc_list := Some (l ++ extra')%list |} ->
  _get_forecast_rainfall P lat lon = _get_forecast_rainfall P' lat lon.
Proof.
  intros L E E'. unfold _get_forecast_rainfall. rewrite E, E'.
  cbn [fc_list].
  assert (F : forall x, firstn 4 (l ++ x) = firstn 4 l).
  { intros x. rewrite firstn_app.
    replace (4 - List.length l)%nat with 0%nat by lia.
    cbn [firstn]. apply app_nil_r. }
  now rewrite !F.
Qed.

Lemma forecast_window_is_four_intervals_witness :
  (4 <= List.length five_intervals)%nat
  /\ _get_forecast_rainfall (forecasting five_intervals) 0 0 = 2.5%float
  /\ _get_forecast_rainfall (forecasting five_intervals) 0 0
     = _get_forecast_rainfall
         (forecasting (five_intervals ++ [wet 80; wet 90; wet 100])) 0 0.
Proof.
  split; [simpl; lia|]. split; [reflexivity|].
  apply (forecast_window_is_four_intervals
           (forecasting five_intervals)
           (forecasting (five_intervals ++ [wet 80; wet 90; wet 100]))
           0 0 five_intervals [] [wet 80; wet 90; wet 100]).
  - simpl; lia.
  - reflexivity.
  - reflexivity.
Defined.

End FactorFacts.

(** ** Test notifications *)

Module TestNotificationFacts.
Import Py Schemas Effects Effects.Notations Http Notification Spec Vocabulary.
Import Examples.





End TestNotificationFacts.

(** ** Registration and login *)

Module AuthFacts.
Import Py Schemas Http Auth Vocabulary.

Lemma find_none_field (key : User -> string) (k : string) (db : Users) :
  find (fun u => key u =? k) db = None -> ~ In k (map key db).
Proof.
  intros F H. apply in_map_iff in H. destruct H as (u & <- & Hu).
  pose proof (find_none _ _ F u Hu) as E. simpl in E.
  now rewrite String.eqb_refl in E.
Qed.

Lemma NoDup_snoc {A} (l : list A) (x : A) :
  NoDup l -> ~ In x l -> NoDup (l ++ [x]).
Proof.
  intros N H. induction N as [|y l Hy N IH]; simpl.
  - constructor; [intros []|constructor].
  - constructor.
    + intros I. apply in_app_or in I. destruct I as [I|[I|[]]].
      * contradiction.
      * subst. apply H. now left.
    + apply IH. intros I. apply H. now right.
Qed.

(** X18.  Registration keeps e-mail addresses and user names unique.  A
    taken address or name answers 400 and changes nothing; otherwise one
    active, non-admin row is appended that holds the hash of the password
    and the request's address and name, and every earlier row stays. *)
Theorem register_user_keeps_unique (A : AuthUtils) (user : UserCreate)
  (db : Users) :
  NoDup (map user_email db) -> NoDup (map user_username db) ->
  let r := fst (register_user A user db) in
  let db' := snd (register_user A user db) in
  NoDup (map user_email db') /\ NoDup (map user_username db')
  /\ (In (uc_email user) (map user_email db) ->
      r = HTTPException 400 "Email already registered" /\ db' = db)
  /\ (~ In (uc_email user) (map user_email db) ->
      In (uc_username user) (map user_username db) ->
      r = HTTPException 400 "Username already taken" /\ db' = db)
  /\ (~ In (uc_email user) (map user_email db) ->
      ~ In (uc_username user) (map user_username db) ->
      exists created,
        r = Respond created /\ db' = (db ++ [created])%list
        /\ user_email created = uc_email user
        /\ user_username created = uc_username user
        /\ user_hashed_password created
           = get_password_hash A (uc_password user)
        /\ user_is_active created = 1 /\ user_is_admin created = 0).
Proof.
  intros Ne Nu. cbv zeta. unfold register_user, get_user_by_email,
    get_user_by_username.
  destruct (find (fun u => user_email u =? uc_email user) db) as [u|] eqn:Fe.
  - simpl. split; [exact Ne|]. split; [exact Nu|].
    split; [auto|]. split.
    + intros H. elim H. apply find_some in Fe. destruct Fe as [I E].
      apply String.eqb_eq in E. rewrite <- E. now apply in_map.
    + intros H. elim H. apply find_some in Fe. destruct Fe as [I E].
      apply String.eqb_eq in E. rewrite <- E. now apply in_map.
  - pose proof (find_none_field user_email _ _ Fe) as He.
    destruct (find (fun u => user_username u =? uc_username user) db)
      as [u|] eqn:Fu.
    + simpl. split; [exact Ne|]. split; [exact Nu|].
      split; [intros H; contradiction|]. split; [auto|].
      intros _ H. elim H. apply find_some in Fu. destruct Fu as [I E].
      apply String.eqb_eq in E. rewrite <- E. now apply in_map.
    + pose proof (find_none_field user_username _ _ Fu) as Hu.
      unfold create_user. cbn [fst snd].
      rewrite !map_app. cbn [map user_email user_username].
      split; [now apply NoDup_snoc|]. split; [now apply NoDup_snoc|].
      split; [intros H; contradiction|].
      split; [intros _ H; contradiction|].
      intros _ _. eexists. repeat split.
Qed.

Lemma register_user_keeps_unique_witness :
  let db' := snd (register_user toy_auth new_user []) in
  NoDup (map user_email db') /\ NoDup (map user_username db')
  /\ fst (register_user toy_auth new_user db')
     = HTTPException 400 "Email already registered".
Proof.
  cbv zeta. split; [|split; [|reflexivity]].
  - apply (register_user_keeps_unique toy_auth new_user []); constructor.
  - apply (register_user_keeps_unique toy_auth new_user []); constructor.
Defined.

(** X19.  Login issues a token only for a stored user with the given
    name whose stored hash verifies the given password and whose account
    is active; the token is made for that name and typed bearer.  Every
    refusal is a 401. *)
Theorem login_requires_credentials (A : AuthUtils)
  (username password : string) (db : Users) :
  (forall token,
      login A username password db = Respond token ->
      exists user,
        get_user_by_username db username = Some user
        /\ user_username user = username
        /\ verify_password A password (user_hashed_password user) = true
        /\ user_is_active user <> 0
        /\ token = (create_access_token A username, "bearer"))
  /\ (forall status detail,
         login A username password db = HTTPException status detail ->
         status = 401).
Proof.
  unfold login.
  destruct (get_user_by_username db username) as [user|] eqn:F.
  - assert (U : user_username user = username).
    { unfold get_user_by_username in F. apply find_some in F.
      destruct F as [_ E]. now apply String.eqb_eq in E. }
    destruct (verify_password A password (user_hashed_password user)) eqn:V;
      cbn [negb].
    + destruct (Z.eqb_spec (user_is_active user) 0) as [Z0|Z0].
      * split; [discriminate|]. intros st d E. now injection E as <- _.
      * split; [|discriminate].
        intros token E. injection E as <-. exists user.
        rewrite U. repeat split; auto.
    + split; [discriminate|]. intros st d E. now injection E as <- _.
  - split; [discriminate|]. intros st d E. now injection E as <- _.
Qed.

(** X20.  With utilities whose hash verifies the password it was made
    from and whose tokens decode to the name they were made for, a user
    who has just registered can log in with the same name and password,
    and the token obtained identifies the registered user. *)
Theorem registered_user_can_log_in (A : AuthUtils) (user : UserCreate)
  (db db' : Users) (created : User) :
  (forall p, verify_password A p (get_password_hash A p) = true) ->
  (forall u, decode_access_token A (create_access_token A u) = Some u) ->
  register_user A user db = (Respond created, db') ->
  login A (uc_username user) (uc_password user) db'
  = Respond (create_access_token A (uc_username user), "bearer")
  /\ get_current_user A (create_access_token A (uc_username user)) db'
     = Respond created.
Proof.
  intros Hv Hd. unfold register_user.
  destruct (get_user_by_email db (uc_email user)); [discriminate|].
  destruct (get_user_by_username db (uc_username user)) eqn:Fu;
    [discriminate|].
  unfold create_user. intros E. injection E as <- <-.
  assert (F : get_user_by_username
                (db ++ [{| user_id := Z.of_nat (List.length db) + 1;
                           user_email := uc_email user;
                           user_username := uc_username user;
                           user_hashed_password :=
                             get_password_hash A (uc_password user);
                           user_is_active := 1;
                           user_is_admin := 0 |}])%list (uc_username user)
              = Some {| user_id := Z.of_nat (List.length db) + 1;
                        user_email := uc_email user;
                        user_username := uc_username user;
                        user_hashed_password :=
                          get_password_hash A (uc_password user);
                        user_is_active := 1;
                        user_is_admin := 0 |}).
  { unfold get_user_by_username in *. rewrite HandlerFacts.find_app, Fu.
    simpl. now rewrite String.eqb_refl. }
  split.
  - unfold login. rewrite F. cbn [user_hashed_password user_is_active
                                  user_username].
    now rewrite Hv.
  - unfold get_current_user. now rewrite Hd, F.
Qed.

Lemma registered_user_can_log_in_witness :
  login toy_auth "erin" "correct horse"
    (snd (register_user toy_auth new_user []))
  = Respond ("t:erin", "bearer")
  /\ get_current_user toy_auth "t:erin"
       (snd (register_user toy_auth new_user []))
     = Respond (fst (create_user [] new_user "h:correct horse")).
Proof.
  apply (registered_user_can_log_in toy_auth new_user []
           (snd (register_user toy_auth new_user []))
           (fst (create_user [] new_user "h:correct horse"))).
  - intros p. simpl. apply String.eqb_refl.
  - intros u. reflexivity.
  - reflexivity.
Defined.

End AuthFacts.

(** ** Who is alerted, and when an attempt counts *)

Module FanOutFacts.
Import Py Schemas Models Effects Effects.Notations Http Notification Spec.
Import Vocabulary Examples.

Lemma successes_none ok req h l :
  (forall h x, ok h x = false) -> successes ok req h l = 0.
Proof.
  intros H. revert h. induction l as [|x l IH]; intros h; [reflexivity|].
  cbn [successes]. now rewrite H, IH.
Qed.

Lemma successes_all ok req h l :
  (forall h x, ok h x = true) ->
  successes ok req h l = Z.of_nat (List.length l).
Proof.
  intros H. revert h. induction l as [|x l IH]; intros h; [reflexivity|].
  cbn [successes]. rewrite H, IH.
  change (List.length (x :: l)) with (S (List.length l)). lia.
Qed.

Lemma sms_recipients_app (l1 l2 : Log) :
  sms_recipients (l1 ++ l2)%list
  = (sms_recipients l1 ++ sms_recipients l2)%list.
Proof. apply flat_map_app. Qed.

Lemma email_recipients_app (l1 l2 : Log) :
  email_recipients (l1 ++ l2)%list
  = (email_recipients l1 ++ email_recipients l2)%list.
Proof. apply flat_map_app. Qed.

Lemma sms_recipients_of_sms self message l :
  sms_recipients (flat_map (sms_requests self message) l)
  = if sms_configured self then l else [].
Proof.
  unfold sms_requests, sms_configured.
  destruct (forallb truthy _).
  - induction l as [|x l IH]; [reflexivity|]. simpl. now rewrite IH.
  - induction l as [|x l IH]; [reflexivity|]. simpl. exact IH.
Qed.

Lemma sms_recipients_of_email self subject body html l :
  sms_recipients (flat_map (email_requests self subject body html) l) = [].
Proof.
  unfold email_requests. destruct (forallb truthy _);
    induction l as [|x l IH]; simpl; auto.
Qed.

Lemma email_recipients_of_email self subject body html l :
  email_recipients (flat_map (email_requests self subject body html) l)
  = if email_configured self then l else [].
Proof.
  unfold email_requests, email_configured.
  destruct (forallb truthy _).
  - induction l as [|x l IH]; [reflexivity|]. simpl. now rewrite IH.
  - induction l as [|x l IH]; [reflexivity|]. simpl. exact IH.
Qed.

Lemma email_recipients_of_sms self message l :
  email_recipients (flat_map (sms_requests self message) l) = [].
Proof.
  unfold sms_requests. destruct (forallb truthy _);
    induction l as [|x l IH]; simpl; auto.
Qed.

(** X21.  Without the full set of Twilio credentials no request reaches
    Twilio and every phone number is counted as failed, while the e-mail
    channel is processed as usual: every address is still attempted and
    counted on its own outcome. *)
Theorem missing_sms_credentials_fail_every_sms (self : NotificationService)
  (G : Gateways) (T : Templates) (loc lvl : string) (score lat lon : float)
  (phone_numbers emails : option (list string)) (h : Log) :
  sms_configured self = false ->
  exists r new,
    send_flood_alert self G T loc lvl score lat lon phone_numbers emails h
    = (Ok r, (h ++ new)%list)
    /\ sms_sent r = 0
    /\ sms_failed r = Z.of_nat (List.length (recipients phone_numbers))
    /\ sms_recipients new = []
    /\ email_recipients new
       = (if email_configured self then recipients emails else [])
    /\ emails_sent r
       = successes
           (email_ok self (smtp G) (email_subject T loc lvl score lat lon)
              (email_body T loc lvl score lat lon)
              (Some (email_html T loc lvl score lat lon)))
           (email_requests self (email_subject T loc lvl score lat lon)
              (email_body T loc lvl score lat lon)
              (Some (email_html T loc lvl score lat lon)))
           h (recipients emails)
    /\ emails_sent r + emails_failed r
       = Z.of_nat (List.length (recipients emails)).
Proof.
  intros Hc.
  pose proof (DispatchFacts.send_flood_alert_run self G T loc lvl score lat
                lon phone_numbers emails h) as E.
  cbv zeta in E. rewrite E. clear E.
  assert (Hreq : forall l,
             flat_map (sms_requests self (sms_message T loc lvl score lat lon)) l
             = []).
  { intros l. unfold sms_requests. unfold sms_configured in Hc. rewrite Hc.
    induction l; simpl; auto. }
  assert (Hok : forall h x,
             sms_ok self (twilio G) (sms_message T loc lvl score lat lon) h x
             = false).
  { intros h0 x. unfold sms_ok. unfold sms_configured in Hc. now rewrite Hc. }
  rewrite Hreq, app_nil_r.
  eexists; eexists. split; [reflexivity|].
  cbn [sms_sent sms_failed emails_sent emails_failed].
  rewrite (successes_none _ _ _ _ Hok).
  split; [reflexivity|]. split; [lia|].
  split; [apply sms_recipients_of_email|].
  split; [apply email_recipients_of_email|].
  split; [reflexivity|]. lia.
Qed.

Lemma missing_sms_credentials_fail_every_sms_witness :
  sms_configured email_only = false
  /\ send_flood_alert email_only sms_down plain_templates "Quay" "Critical"
       100 0 0 (Some ["+15550100"; "+15550101"]) (Some ["b@example.org"]) []
     = (Ok {| sms_sent := 0; sms_failed := 2;
              emails_sent := 1; emails_failed := 0 |},
        [SmtpSend "alerts@example.org" "b@example.org" "Critical risk at Quay"
           "Critical risk at Quay" (Some "Critical risk at Quay")])
  /\ exists r new,
       send_flood_alert email_only sms_down plain_templates "Quay" "Critical"
         100 0 0 (Some ["+15550100"; "+15550101"]) (Some ["b@example.org"]) []
       = (Ok r, ([] ++ new)%list)
       /\ sms_sent r = 0.
Proof.
  split; [reflexivity|]. split; [reflexivity|].
  destruct (missing_sms_credentials_fail_every_sms email_only sms_down
              plain_templates "Quay" "Critical" 100 0 0
              (Some ["+15550100"; "+15550101"]) (Some ["b@example.org"]) []
              eq_refl) as (r & new & E & S & _).
  exists r, new. split; [exact E|exact S].
Defined.

(** X22.  With the Twilio credentials set, an SMS counts as sent exactly
    on status 201: if Twilio answers every message with 201 all phone
    numbers are counted as sent, and if it answers every message with any
    other status (200 included) all are counted as failed; each number
    receives one request either way. *)
Theorem sms_counts_follow_status_201 (self : NotificationService)
  (G : Gateways) (T : Templates) (loc lvl : string) (score lat lon : float)
  (phone_numbers emails : option (list string)) (h : Log) (status : Z) :
  sms_configured self = true ->
  (forall h p m, twilio G h p m = Returned status) ->
  exists r new,
    send_flood_alert self G T loc lvl score lat lon phone_numbers emails h
    = (Ok r, (h ++ new)%list)
    /\ sms_recipients new = recipients phone_numbers
    /\ (status = 201 ->
        sms_sent r = Z.of_nat (List.length (recipients phone_numbers))
        /\ sms_failed r = 0)
    /\ (status <> 201 ->
        sms_sent r = 0
        /\ sms_failed r = Z.of_nat (List.length (recipients phone_numbers))).
Proof.
  intros Hc Ht.
  pose proof (DispatchFacts.send_flood_alert_run self G T loc lvl score lat
                lon phone_numbers emails h) as E.
  cbv zeta in E. rewrite E. clear E.
  eexists; eexists. split; [rewrite <- app_assoc; reflexivity|].
  cbn [sms_sent sms_failed].
  split.
  { rewrite sms_recipients_app, sms_recipients_of_sms,
      sms_recipients_of_email, Hc. apply app_nil_r. }
  split.
  - intros ->.
    rewrite successes_all; [lia|].
    intros h0 x. unfold sms_ok. unfold sms_configured in Hc.
    now rewrite Hc, Ht.
  - intros Hs.
    rewrite successes_none; [lia|].
    intros h0 x. unfold sms_ok. rewrite Ht.
    apply Z.eqb_neq in Hs. rewrite Hs. apply andb_false_r.
Qed.

Lemma sms_counts_follow_status_201_witness :
  sms_configured notifier = true
  /\ exists r new,
       send_flood_alert notifier (twilio_answers 200) plain_templates
         "Quay" "Critical" 100 0 0 (Some ["+15550100"]) None []
       = (Ok r, ([] ++ new)%list)
       /\ sms_recipients new = ["+15550100"]
       /\ (200 = 201 -> sms_sent r = 1 /\ sms_failed r = 0)
       /\ (200 <> 201 -> sms_sent r = 0 /\ sms_failed r = 1).
Proof.
  split; [reflexivity|].
  apply (sms_counts_follow_status_201 notifier (twilio_answers 200)
           plain_templates "Quay" "Critical" 100 0 0
           (Some ["+15550100"]) None [] 200).
  - reflexivity.
  - reflexivity.
Defined.

Lemma In_contacts (f : AlertSubscription -> option string)
  (subs : list AlertSubscription) (c : string) :
  In c (Floods.contacts f subs) <->
  exists sub, In sub subs /\ f sub = Some c /\ c <> "".
Proof.
  unfold Floods.contacts. rewrite in_flat_map. split.
  - intros (sub & Hin & Hc). exists sub. split; [exact Hin|].
    destruct (f sub) as [c'|]; [|destruct Hc].
    cbn [truthy] in Hc. destruct (String.eqb_spec c' ""); cbn [negb] in Hc;
      [destruct Hc|].
    destruct Hc as [<-|[]]. split; [reflexivity|assumption].
  - intros (sub & Hin & Hf & Hc). exists sub. split; [exact Hin|].
    rewrite Hf. cbn [truthy].
    destruct (String.eqb_spec c ""); [contradiction|]. simpl. auto.
Qed.

(** What the creation handler leaves in the log. *)
Lemma create_flood_event_log R P frs ns G T fe db h :
  let rd := FloodRisk.calculate_flood_risk R P frs
              (fec_latitude fe) (fec_longitude fe)
              (fec_rainfall_mm fe) (fec_elevation_m fe) in
  let matched := Crud.get_subscriptions_near_location R db
                   (fec_latitude fe) (fec_longitude fe)
                   (FloodRisk.severity rd) in
  let score := float_of_int (FloodRisk.risk_score rd) in
  snd (Floods.create_flood_event R P frs ns G T fe db h)
  = (h ++ if str_in (FloodRisk.severity rd) ["High"; "Critical"]
          then Entered Matching
               :: match matched with
                  | [] => []
                  | _ :: _ =>
                      Entered Dispatch
                      :: flat_map
                           (sms_requests ns
                              (sms_message T (fec_location_name fe)
                                 (FloodRisk.severity rd) score
                                 (fec_latitude fe) (fec_longitude fe)))
                           (Floods.contacts sub_phone matched)
                      ++ flat_map
                           (email_requests ns
                              (email_subject T (fec_location_name fe)
                                 (FloodRisk.severity rd) score
                                 (fec_latitude fe) (fec_longitude fe))
                              (email_body T (fec_location_name fe)
                                 (FloodRisk.severity rd) score
                                 (fec_latitude fe) (fec_longitude fe))
                              (Some
                                 (email_html T (fec_location_name fe)
                                    (FloodRisk.severity rd) score
                                    (fec_latitude fe) (fec_longitude fe))))
                           (Floods.contacts sub_email matched)
                  end
          else [])%list.
Proof.
  cbv zeta. unfold Floods.create_flood_event.
  set (rd := FloodRisk.calculate_flood_risk _ _ _ _ _ _ _).
  unfold Crud.create_flood_event.
  change (Crud.get_subscriptions_near_location R
            {| flood_events := _; alert_subscriptions := alert_subscriptions db |})
    with (Crud.get_subscriptions_near_location R db).
  destruct (str_in _ _).
  - unfold bind at 1. unfold emit at 1.
    destruct (Crud.get_subscriptions_near_location R db _ _ _)
      as [|sub subs] eqn:M.
    + reflexivity.
    + unfold bind at 1. unfold emit at 1. unfold bind at 1.
      match goal with
      | |- context [send_flood_alert ?a ?b ?c ?d ?e ?f ?g ?i ?j ?k ?l] =>
          pose proof (DispatchFacts.send_flood_alert_run a b c d e f g i j k l)
            as D; cbv zeta in D; rewrite D; clear D
      end.
      rewrite !NotificationsFacts.recipients_or_None.
      unfold ret. cbn [snd]. rewrite <- !app_assoc. reflexivity.
  - unfold ret. cbn [snd]. now rewrite app_nil_r.
Qed.

Lemma recipients_of_alert_log ns message subject body html
  (alerting : bool) (matched : list AlertSubscription) :
  let log :=
    if alerting
    then Entered Matching
         :: match matched with
            | [] => []
            | _ :: _ =>
                Entered Dispatch
                :: flat_map (sms_requests ns message)
                     (Floods.contacts sub_phone matched)
                ++ flat_map (email_requests ns subject body html)
                     (Floods.contacts sub_email matched)
            end
    else [] in
  sms_recipients log
  = (if alerting && sms_configured ns
     then Floods.contacts sub_phone matched else [])
  /\ email_recipients log
     = (if alerting && email_configured ns
        then Floods.contacts sub_email matched else []).
Proof.
  cbv zeta. destruct alerting; [|split; reflexivity]. cbn [andb].
  destruct matched as [|sub subs] eqn:M.
  - split; simpl; [now destruct (sms_configured ns)
                  |now destruct (email_configured ns)].
  - split.
    + change (sms_recipients (Entered Matching :: Entered Dispatch :: ?l))
        with (sms_recipients l).
      rewrite sms_recipients_app, sms_recipients_of_sms,
        sms_recipients_of_email. apply app_nil_r.
    + change (email_recipients (Entered Matching :: Entered Dispatch :: ?l))
        with (email_recipients l).
      rewrite email_recipients_app, email_recipients_of_sms,
        email_recipients_of_email. reflexivity.
Qed.

(** X23.  Creating an event alerts exactly the matched subscribers.  The
    phone numbers that receive an SMS request are, in order and once
    each, the non-empty phone numbers of the subscriptions matched to the
    event, provided the severity is High or Critical and the Twilio
    credentials are set, and nobody otherwise; likewise for the addresses
    and the SMTP credentials. *)
Theorem created_event_alerts_matched_subscribers (R : Runtime)
  (P : FloodRisk.Providers) (frs : FloodRisk.FloodRiskService)
  (ns : NotificationService) (G : Gateways) (T : Templates)
  (fe : FloodEventCreate) (db : Session) (h : Log) :
  let rd := FloodRisk.calculate_flood_risk R P frs
              (fec_latitude fe) (fec_longitude fe)
              (fec_rainfall_mm fe) (fec_elevation_m fe) in
  let matched := Crud.get_subscriptions_near_location R db
                   (fec_latitude fe) (fec_longitude fe)
                   (FloodRisk.severity rd) in
  let alerting := str_in (FloodRisk.severity rd) ["High"; "Critical"] in
  exists new,
    snd (Floods.create_flood_event R P frs ns G T fe db h) = (h ++ new)%list
    /\ sms_recipients new
       = (if alerting && sms_configured ns
          then Floods.contacts sub_phone matched else [])
    /\ email_recipients new
       = (if alerting && email_configured ns
          then Floods.contacts sub_email matched else [])
    /\ (forall p, In p (sms_recipients new) ->
        exists sub, In sub matched /\ sub_phone sub = Some p /\ p <> "")
    /\ (forall e, In e (email_recipients new) ->
        exists sub, In sub matched /\ sub_email sub = Some e /\ e <> "").
Proof.
  cbv zeta.
  pose proof (create_flood_event_log R P frs ns G T fe db h) as L.
  cbv zeta in L. rewrite L. clear L.
  set (rd := FloodRisk.calculate_flood_risk _ _ _ _ _ _ _).
  set (matched := Crud.get_subscriptions_near_location R db _ _ _).
  eexists. split; [reflexivity|].
  destruct (recipients_of_alert_log ns
              (sms_message T (fec_location_name fe) (FloodRisk.severity rd)
                 (float_of_int (FloodRisk.risk_score rd))
                 (fec_latitude fe) (fec_longitude fe))
              (email_subject T (fec_location_name fe) (FloodRisk.severity rd)
                 (float_of_int (FloodRisk.risk_score rd))
                 (fec_latitude fe) (fec_longitude fe))
              (email_body T (fec_location_name fe) (FloodRisk.severity rd)
                 (float_of_int (FloodRisk.risk_score rd))
                 (fec_latitude fe) (fec_longitude fe))
              (Some (email_html T (fec_location_name fe)
                       (FloodRisk.severity rd)
                       (float_of_int (FloodRisk.risk_score rd))
                       (fec_latitude fe) (fec_longitude fe)))
              (str_in (FloodRisk.severity rd) ["High"; "Critical"])
              matched) as [S E].
  split; [exact S|]. split; [exact E|].
  rewrite S, E. clear S E. split.
  - destruct (_ && _); intros p Hp; [|destruct Hp].
    now apply In_contacts.
  - destruct (_ && _); intros e He; [|destruct He].
    now apply In_contacts.
Qed.

End FanOutFacts.
